(** * Catalog controllers: attributes, products, categories, departments, reviews

    A shallow embedding of [src/controllers/attributes.controller.js]
    (the attribute controller followed by the product controller).

    Every handler is an [async] function [(req, res, next)] that awaits one
    or two calls of the object-relational mapper and then answers through
    [res.status(..).json(..)], hands an exception to [next], or returns
    without doing either.  A handler is embedded as a function from the
    request and the state of the world (tables, connection, clock, the list
    of statements issued so far) to an outcome and the new state. *)

From Stdlib Require Import String Ascii List ZArith Lia Bool DecimalString.
Import ListNotations.

Local Open Scope string_scope.
Local Open Scope Z_scope.

(** ** JavaScript strings and request values *)

Module Js.

(** A string is kept as its UTF-8 text: a character of ASCII is one byte
    below 128, any other character a run of bytes from 128 up.  Whether
    one text occurs in another does not depend on the encoding. *)
Definition is_ascii_char (c : ascii) : bool := (nat_of_ascii c <? 128)%nat.

Fixpoint is_ascii (s : string) : bool :=
  match s with
  | EmptyString => true
  | String c s' => is_ascii_char c && is_ascii s'
  end.

(** The lowering of a text of ASCII: ['A'..'Z'] go to ['a'..'z'], every
    other character is kept. *)
Definition lower_char (c : ascii) : ascii :=
  let n := nat_of_ascii c in
  if ((65 <=? n) && (n <=? 90))%nat then ascii_of_nat (n + 32) else c.

Fixpoint ascii_lower (s : string) : string :=
  match s with
  | EmptyString => EmptyString
  | String c s' => String (lower_char c) (ascii_lower s')
  end.

(** The lowering of a text that holds a character outside ASCII follows
    the Unicode character data and the context rules of the language
    (final sigma among them); neither is fixed by the controller. *)
Class Unicode : Type := {
  unicode_toLowerCase : string -> string
}.

(** [String.prototype.toLowerCase] *)
Definition toLowerCase {u : Unicode} (s : string) : string :=
  if is_ascii s then ascii_lower s else unicode_toLowerCase s.

(** [startsWith]: [q] is an initial segment of [s]. *)
Fixpoint startsWith (s q : string) {struct q} : bool :=
  match q, s with
  | EmptyString, _ => true
  | String _ _, EmptyString => false
  | String b q', String a s' => Ascii.eqb a b && startsWith s' q'
  end.

(** [s.indexOf(q)] scanning from position [i]: the first position at which
    [q] starts, [-1] when there is none. *)
Fixpoint indexOf_from (i : Z) (s q : string) : Z :=
  if startsWith s q then i
  else match s with
       | EmptyString => -1
       | String _ s' => indexOf_from (i + 1) s' q
       end.

Definition indexOf (s q : string) : Z := indexOf_from 0 s q.

(** Values a request can carry in [req.query], [req.params] and
    [req.body]; a property that is absent reads as [JUndefined]. *)
Inductive jsval : Type :=
| JUndefined
| JNull
| JBool (b : bool)
| JNum (n : Z)
| JStr (s : string).

(** [ToString], as applied by a template literal [`${v}`] and by
    [indexOf] to its argument. *)
Definition to_string (v : jsval) : string :=
  match v with
  | JUndefined => "undefined"
  | JNull => "null"
  | JBool true => "true"
  | JBool false => "false"
  | JNum n => NilZero.string_of_int (Z.to_int n)
  | JStr s => s
  end.

(** [ToBoolean], the test of [if (v)]. *)
Definition truthy (v : jsval) : bool :=
  match v with
  | JUndefined | JNull => false
  | JBool b => b
  | JNum n => negb (n =? 0)
  | JStr s => negb (String.eqb s "")
  end.

(** [v == undefined] (loose equality: [null] and [undefined] only). *)
Definition eq_undefined (v : jsval) : bool :=
  match v with
  | JUndefined | JNull => true
  | _ => false
  end.

(** Exceptions: a [TypeError] of the language, or a rejection by the
    store (connection lost, statement refused, row refused). *)
Inductive exn : Type :=
| TypeError (what : string)
| StoreError (what : string).

(** [v.toLowerCase()]: defined on strings; on a number or a boolean the
    property is undefined and the call raises a [TypeError]. *)
Definition call_toLowerCase {u : Unicode} (v : jsval) : exn + string :=
  match v with
  | JStr s => inr (toLowerCase s)
  | JUndefined | JNull =>
      inl (TypeError "Cannot read property 'toLowerCase'")
  | JBool _ | JNum _ => inl (TypeError "toLowerCase is not a function")
  end.

(** [Array.prototype.filter] with a callback that may throw: the callback
    runs on the elements in order and the first exception escapes. *)
Fixpoint filter_throwing {A : Type} (f : A -> exn + bool) (l : list A)
  : exn + list A :=
  match l with
  | [] => inr []
  | x :: l' =>
      match f x with
      | inl e => inl e
      | inr b =>
          match filter_throwing f l' with
          | inl e => inl e
          | inr r => inr (if b then x :: r else r)
          end
      end
  end.

(** A plain object read by property name: the first binding wins, a
    missing property is [undefined]. *)
Definition object := list (string * jsval).

Fixpoint get (o : object) (k : string) : jsval :=
  match o with
  | [] => JUndefined
  | (k', v) :: o' => if String.eqb k k' then v else get o' k
  end.

End Js.
Import Js.

(** ** The tables

    The model declarations ([../database/models]) are not part of the
    controller file.  [Product.row] lists the columns that [getProduct]
    copies into its answer; the other rows list the columns the handlers
    name ([value], [attribute_id], [category_id], [department_id], the
    fields of a review), the key of each table and its display name. *)

Module Product.
Record row : Type := {
  product_id : Z;
  name : string;
  description : string;
  price : string;
  discounted_price : string;
  image : string;
  image_2 : string;
  thumbnail : string;
  display : Z
}.
End Product.

Module Department.
Record row : Type := { department_id : Z; name : string }.
End Department.

Module Category.
Record row : Type := { category_id : Z; department_id : Z; name : string }.
End Category.

Module Attribute.
Record row : Type := { attribute_id : Z; name : string }.
End Attribute.

Module AttributeValue.
Record row : Type := {
  attribute_value_id : Z;
  attribute_id : Z;
  value : string
}.
End AttributeValue.

Module Review.
(** What [postProductReviews] hands to [Review.create]. *)
Record metadata : Type := {
  m_product_id : jsval;
  m_review : jsval;
  m_rating : jsval;
  m_customer_id : Z
}.

(** A stored review keeps the request values of the three fields the
    handler passes on; its key and its creation time are the store's. *)
Record row : Type := {
  review_id : Z;
  customer_id : Z;
  product_id : jsval;
  review : jsval;
  rating : jsval;
  created_on : Z
}.
End Review.

(** The association tables of the two many-to-many relations hold pairs of
    keys: (product, attribute value) and (product, category). *)
Record Db : Type := {
  Products : list Product.row;
  Departments : list Department.row;
  Categories : list Category.row;
  Attributes : list Attribute.row;
  AttributeValues : list AttributeValue.row;
  ProductAttributes : list (Z * Z);
  ProductCategories : list (Z * Z);
  Reviews : list Review.row
}.

Inductive Model : Type :=
| MProduct | MDepartment | MCategory | MAttribute | MAttributeValue | MReview.

(** The statements a handler can send to the store. *)
Inductive Statement : Type :=
| FindAndCountAll (m : Model) (limit offset : jsval)
| FindAll (m : Model)
| FindByPk (m : Model) (key : jsval)
| Create (m : Model).

(** The world a handler runs in: the tables, whether the store can be
    reached, the store's clock, and the statements sent so far (most
    recent first). *)
Record World : Type := {
  db : Db;
  connected : bool;
  now : Z;
  issued : list Statement
}.

(** ** Collaborators outside the controller

    The message catalog ([../Error/error]), the serialisation of a product
    instance (fixed by its model declaration), three decisions of the
    store and its driver, and the lowering of texts outside ASCII are not
    settled by the controller's code; the development is parametric in
    them. *)
Class Collaborators : Type := {
  (** The lowering of texts outside ASCII. *)
  unicode :: Unicode;
  (** [error.<Group>.<CODE>]: the template filed under a group and code. *)
  error : string -> string -> string;
  (** [JSON.stringify] of a product instance. *)
  stringify : Product.row -> string;
  (** Whether the store takes a request value to denote a given key. *)
  key_eq : jsval -> Z -> bool;
  (** How the store reads a limit or offset that is not a number;
      [None] when it refuses the statement. *)
  text_bound : jsval -> option nat;
  (** Whether the [Review] model and its table accept a new row. *)
  accepts : Review.metadata -> bool
}.

(** ** Awaited store calls: state and exceptions

    A computation reads and updates the world and either yields a value or
    throws; what it did to the world before throwing stays done. *)
Definition M (A : Type) : Type := World -> (exn + A) * World.

Definition ret {A : Type} (a : A) : M A := fun w => (inr a, w).

Definition throw {A : Type} (e : exn) : M A := fun w => (inl e, w).

Definition bind {A B : Type} (m : M A) (k : A -> M B) : M B :=
  fun w =>
    match m w with
    | (inl e, w') => (inl e, w')
    | (inr a, w') => k a w'
    end.

Declare Scope await_scope.
Delimit Scope await_scope with await.
Notation "x <- m ;; k" := (bind m (fun x => k))
  (at level 61, m at next level, right associativity) : await_scope.

(** A value or an exception computed without the store. *)
Definition lift {A : Type} (r : exn + A) : M A :=
  match r with
  | inl e => throw e
  | inr a => ret a
  end.

(** Sending a statement: it is recorded, and it fails when the store
    cannot be reached. *)
Definition logged (st : Statement) (w : World) : World :=
  {| db := db w; connected := connected w; now := now w;
     issued := st :: issued w |}.

Definition send (st : Statement) : M unit :=
  fun w =>
    if connected w then (inr tt, logged st w)
    else (inl (StoreError "connection refused"), logged st w).

Definition read_db : M Db := fun w => (inr (db w), w).

Definition read_clock : M Z := fun w => (inr (now w), w).

Definition write_reviews (rs : list Review.row) : M unit :=
  fun w =>
    let d := db w in
    (inr tt,
     {| db := {| Products := Products d; Departments := Departments d;
                 Categories := Categories d; Attributes := Attributes d;
                 AttributeValues := AttributeValues d;
                 ProductAttributes := ProductAttributes d;
                 ProductCategories := ProductCategories d;
                 Reviews := rs |};
        connected := connected w; now := now w; issued := issued w |}).

(** ** Answers *)

(** The object under [error] in a failure body. *)
Record ErrorObject : Type := {
  status : Z;
  code : string;
  message : string;
  field : string
}.

(** A JSON body: the data of a success, or [{ error: e }]. *)
Inductive body (A : Type) : Type :=
| Data (a : A)
| ErrorEnvelope (e : ErrorObject).
Arguments Data {A} a.
Arguments ErrorEnvelope {A} e.

(** What a handler has done when its promise settles. *)
Inductive outcome (A : Type) : Type :=
| Sent (http : Z) (b : body A)   (* res.status(http).json(b) *)
| Next (e : exn)                 (* next(error) *)
| NoResponse.                    (* returned without answering *)
Arguments Sent {A} http b.
Arguments Next {A} e.
Arguments NoResponse {A}.

Definition handler (A : Type) : Type := World -> outcome A * World.

(** [try { ... } catch (error) { return next(error); }] *)
Definition try_next {A : Type} (m : M (outcome A)) : handler A :=
  fun w =>
    match m w with
    | (inl e, w') => (Next e, w')
    | (inr o, w') => (o, w')
    end.

Record Request : Type := {
  query : object;
  params : object;
  req_body : object
}.

Module Pagination.
Record meta : Type := {
  currentPage : Z;
  currentPageSize : Z;
  totalPages : Z;
  totalRecords : Z
}.
Record envelope : Type := {
  paginationMeta : meta;
  rows : list Product.row
}.
End Pagination.

Module Receipt.
Record t : Type := {
  name : string;
  review : jsval;
  rating : jsval;
  created_on : Z
}.
End Receipt.

(** ** The object-relational mapper *)

Module Orm.

(** The result of [findAndCountAll]. *)
Record counted (R : Type) : Type := { count : Z; rows : list R }.
Arguments count {R} c.
Arguments rows {R} c.

(** [include] of a parent reached by a foreign key, with a [where] on
    the parent: the inner join of the two tables. *)
Definition join_parent {A B : Type} (fk : A -> Z) (pk : B -> Z)
    (cond : B -> bool) (ta : list A) (tb : list B) : list (A * B) :=
  flat_map
    (fun a =>
       map (fun b => (a, b))
           (filter (fun b => (fk a =? pk b) && cond b) tb))
    ta.

(** [include] across an association table, with a [where] on the far
    side: a link [(ka, kb)] ties the row of key [ka] to the row of key
    [kb]. *)
Definition join_through {A B : Type} (pka : A -> Z) (pkb : B -> Z)
    (links : list (Z * Z)) (cond : B -> bool)
    (ta : list A) (tb : list B) : list (A * B) :=
  flat_map
    (fun a =>
       flat_map
         (fun l =>
            if pka a =? fst l
            then map (fun b => (a, b))
                     (filter (fun b => (snd l =? pkb b) && cond b) tb)
            else [])
         links)
    ta.

Definition swap (l : Z * Z) : Z * Z := (snd l, fst l).

Section WithCollaborators.
Context {ext : Collaborators}.

(** A [limit] or [offset] option: absent, a number, or something the
    store has to read.  The outer [None] is a refused statement. *)
Definition bound (v : jsval) : option (option nat) :=
  match v with
  | JUndefined | JNull => Some None
  | JNum n => if 0 <=? n then Some (Some (Z.to_nat n)) else None
  | JBool _ | JStr _ =>
      match text_bound v with
      | Some n => Some (Some n)
      | None => None
      end
  end.

Definition page {R : Type} (lim off : option nat) (l : list R) : list R :=
  let l' := match off with Some o => skipn o l | None => l end in
  match lim with Some n => firstn n l' | None => l' end.

(** [Model.findAndCountAll({ include, where, limit, offset })]:
    [source] computes the rows that satisfy the [include]/[where] part;
    [count] counts them all, [rows] is the requested window. *)
Definition findAndCountAll {R : Type} (m : Model)
    (source : Db -> list R) (limit offset : jsval) : M (counted R) :=
  (_ <- send (FindAndCountAll m limit offset) ;;
   d <- read_db ;;
   match bound limit, bound offset with
   | Some lim, Some off =>
       let hits := source d in
       ret {| count := Z.of_nat (length hits);
              rows := page lim off hits |}
   | _, _ => throw (StoreError "limit or offset refused")
   end)%await.

(** [Model.findAll()] *)
Definition findAll {R : Type} (m : Model) (table : Db -> list R)
  : M (list R) :=
  (_ <- send (FindAll m) ;;
   d <- read_db ;;
   ret (table d))%await.

(** [Model.findByPk(key)]: [null] without a statement for a missing
    key, an exception for a key that is neither number nor string,
    otherwise the row whose key the store takes [key] to denote. *)
Definition findByPk {R : Type} (m : Model) (table : Db -> list R)
    (pk : R -> Z) (key : jsval) : M (option R) :=
  match key with
  | JUndefined | JNull => ret None
  | JBool _ => throw (StoreError "Argument passed to findByPk is invalid")
  | JNum _ | JStr _ =>
      (_ <- send (FindByPk m key) ;;
       d <- read_db ;;
       ret (find (fun r => key_eq key (pk r)) (table d)))%await
  end.

(** The key the store gives to the next review. *)
Definition next_review_id (rs : list Review.row) : Z :=
  1 + fold_right (fun r acc => Z.max (Review.review_id r) acc) 0 rs.

(** Modelled from the spec: [Review.create] of the absent [Review]
    model.  "Review is created via one explicit write operation; its
    identity and created-timestamp are assigned by the persistence
    layer at insert time."  The row keeps the fields it was given; a
    row the model refuses is an exception and nothing is written. *)
Definition create_review (md : Review.metadata) : M Review.row :=
  (_ <- send (Create MReview) ;;
   if accepts md then
     d <- read_db ;;
     t <- read_clock ;;
     let r := {| Review.review_id := next_review_id (Reviews d);
                 Review.customer_id := Review.m_customer_id md;
                 Review.product_id := Review.m_product_id md;
                 Review.review := Review.m_review md;
                 Review.rating := Review.m_rating md;
                 Review.created_on := t |} in
     _ <- write_reviews (Reviews d ++ [r])%list ;;
     ret r
   else throw (StoreError "row refused"))%await.

End WithCollaborators.
End Orm.

(** ** The attribute controller *)

Module AttributeController.
Import Orm.
Section Handlers.
Context {ext : Collaborators}.

Definition getAllAttributes (req : Request)
  : handler (list Attribute.row) :=
  let limit := get (query req) "limit" in
  let offset := get (query req) "offset" in
  try_next
    (attributes <- findAndCountAll MAttribute Attributes limit offset ;;
     ret (Sent 200 (Data (rows attributes))))%await.

(** Attribute values joined with their attribute, for one attribute. *)
Definition values_of_attribute (attribute_id : jsval) (d : Db)
  : list (AttributeValue.row * Attribute.row) :=
  join_parent AttributeValue.attribute_id Attribute.attribute_id
    (fun a => key_eq attribute_id (Attribute.attribute_id a))
    (AttributeValues d) (Attributes d).

(** The included attribute is kept in each row as [attribute_type]. *)
Definition getSingleAttribute (req : Request)
  : handler (list (AttributeValue.row * Attribute.row)) :=
  let limit := get (query req) "limit" in
  let offset := get (query req) "offset" in
  let attribute_id := get (params req) "attribute_id" in
  try_next
    (attribute <- findAndCountAll MAttributeValue
                    (values_of_attribute attribute_id) limit offset ;;
     if count attribute =? 0 then
       ret (Sent 404 (ErrorEnvelope {|
         status := 404;
         code := "ATR_01";
         message := error "AttributeError" "ATR_01" ++ " "
                    ++ to_string attribute_id;
         field := "attribute_id" |}))
     else ret (Sent 200 (Data (rows attribute))))%await.

(** As above with [attributes: []] on the include: the rows carry the
    columns of the attribute value only. *)
Definition getAttributeValues (req : Request)
  : handler (list AttributeValue.row) :=
  let limit := get (query req) "limit" in
  let offset := get (query req) "offset" in
  let attribute_id := get (params req) "attribute_id" in
  try_next
    (attribute <- findAndCountAll MAttributeValue
                    (fun d => map fst (values_of_attribute attribute_id d))
                    limit offset ;;
     if count attribute =? 0 then
       ret (Sent 404 (ErrorEnvelope {|
         status := 404;
         code := "ATR_01";
         message := error "AttributeError" "ATR_01" ++ " "
                    ++ to_string attribute_id;
         field := "attribute_id" |}))
     else ret (Sent 200 (Data (rows attribute))))%await.

Definition values_of_product (product_id : jsval) (d : Db)
  : list AttributeValue.row :=
  map fst
    (join_through AttributeValue.attribute_value_id Product.product_id
       (map swap (ProductAttributes d))
       (fun p => key_eq product_id (Product.product_id p))
       (AttributeValues d) (Products d)).

Definition getProductAttributes (req : Request)
  : handler (list AttributeValue.row) :=
  let limit := get (query req) "limit" in
  let offset := get (query req) "offset" in
  let product_id := get (params req) "product_id" in
  try_next
    (attribute <- findAndCountAll MAttributeValue
                    (values_of_product product_id) limit offset ;;
     if count attribute =? 0 then
       ret (Sent 404 (ErrorEnvelope {|
         status := 404;
         code := "ATR_02";
         message := error "AttributeError" "ATR_02" ++ " "
                    ++ to_string product_id;
         field := "product_id" |}))
     else ret (Sent 200 (Data (rows attribute))))%await.

End Handlers.
End AttributeController.

(** ** The product controller *)

(** The options object of [getAllProducts]: [page], [limit] and
    [totalPages] are literals, only [offset] comes from the request.  The
    store reads [limit] and [offset] and ignores the other properties. *)
Module SqlQueryMap.
Record t : Type := {
  description_length : Z;
  page : Z;
  limit : Z;
  offset : jsval;
  totalPages : Z
}.
End SqlQueryMap.

Module ProductController.
Import Orm.
Section Handlers.
Context {ext : Collaborators}.

Definition getAllProducts (req : Request)
  : handler Pagination.envelope :=
  let offset := get (query req) "offset" in
  let sqlQueryMap := {|
    SqlQueryMap.description_length := 200;
    SqlQueryMap.page := 1;
    SqlQueryMap.limit := 1;
    SqlQueryMap.offset := offset;
    SqlQueryMap.totalPages := 20 |} in
  try_next
    (products <- findAndCountAll MProduct Products
                   (JNum (SqlQueryMap.limit sqlQueryMap))
                   (SqlQueryMap.offset sqlQueryMap) ;;
     ret (Sent 200 (Data {|
       Pagination.paginationMeta := {|
         Pagination.currentPage := SqlQueryMap.page sqlQueryMap;
         Pagination.currentPageSize := SqlQueryMap.limit sqlQueryMap;
         Pagination.totalPages := SqlQueryMap.totalPages sqlQueryMap;
         Pagination.totalRecords := count products |};
       Pagination.rows := rows products |})))%await.

(** The callback of the filter when [all_words] is [on]. *)
Definition matches_any_field (query_string : jsval) (data : Product.row)
  : exn + bool :=
  match call_toLowerCase query_string with
  | inl e => inl e
  | inr q => inr (negb (indexOf (toLowerCase (stringify data)) q =? -1))
  end.

(** The callback of the filter when [all_words] is [off]. *)
Definition matches_name (query_string : jsval) (data : Product.row)
  : bool :=
  negb (indexOf (Product.name data) (to_string query_string) =? -1).

Definition searchProduct (req : Request) : handler (list Product.row) :=
  let query_string := get (query req) "query_string" in
  let all_words := get (query req) "all_words" in
  if eq_undefined all_words then
    fun w => (Sent 404 (ErrorEnvelope {|
      status := 404;
      code := "USR_10";
      message := "all_words " ++ error "UsersError" "USR_10";
      field := "all_words" |}), w)
  else if eq_undefined query_string then
    fun w => (Sent 404 (ErrorEnvelope {|
      status := 404;
      code := "USR_10";
      message := "query_string " ++ error "UsersError" "USR_10";
      field := "query_string" |}), w)
  else
    try_next
      (product <- findAndCountAll MProduct Products
                    JUndefined JUndefined ;;
       mode <- lift (call_toLowerCase all_words) ;;
       if String.eqb mode "on" then
         data <- lift (filter_throwing (matches_any_field query_string)
                         (rows product)) ;;
         ret (Sent 200 (Data data))
       else if String.eqb mode "off" then
         let dataWithAllWordsOff :=
           filter (matches_name query_string) (rows product) in
         ret (Sent 200 (Data dataWithAllWordsOff))
       else ret NoResponse)%await.

Definition products_of_category (category_id : jsval) (d : Db)
  : list Product.row :=
  map fst
    (join_through Product.product_id Category.category_id
       (ProductCategories d)
       (fun c => key_eq category_id (Category.category_id c))
       (Products d) (Categories d)).

Definition getProductsByCategory (req : Request)
  : handler (list Product.row) :=
  try_next
    (let category_id := get (params req) "category_id" in
     let limit := 20 in
     let offset := 0 in
     products <- findAndCountAll MProduct
                   (products_of_category category_id)
                   (JNum limit) (JNum offset) ;;
     if count products =? 0 then
       ret (Sent 404 (ErrorEnvelope {|
         status := 404;
         code := "PRD_02";
         message := error "ProductError" "PRD_02" ++ " "
                    ++ to_string category_id;
         field := "category_id" |}))
     else ret (Sent 200 (Data (rows products))))%await.

(** Whether the association table ties the product to the category. *)
Definition in_category (d : Db) (p : Product.row) (c : Category.row)
  : bool :=
  existsb
    (fun l => (fst l =? Product.product_id p)
              && (snd l =? Category.category_id c))
    (ProductCategories d).

(** The products with a category in the department.  A product can be in
    several categories of one department: the mapper selects and windows
    the products themselves and gathers the categories of the include
    under each, so a product is listed once, in the order of the table. *)
Definition products_of_department (department_id : jsval) (d : Db)
  : list Product.row :=
  filter
    (fun p =>
       existsb
         (fun c => in_category d p c
                   && key_eq department_id (Category.department_id c))
         (Categories d))
    (Products d).

Definition getProductsByDepartment (req : Request)
  : handler (list Product.row) :=
  try_next
    (let department_id := get (params req) "department_id" in
     let limit := 20 in
     let offset := 0 in
     products <- findAndCountAll MProduct
                   (products_of_department department_id)
                   (JNum limit) (JNum offset) ;;
     if count products =? 0 then
       ret (Sent 404 (ErrorEnvelope {|
         status := 404;
         code := "PRD_03";
         message := error "ProductError" "PRD_03" ++ " "
                    ++ to_string department_id;
         field := "department_id" |}))
     else ret (Sent 200 (Data (rows products))))%await.

(** The included attribute values are fetched but not copied into the
    answer. *)
Definition getProduct (req : Request) : handler Product.row :=
  let product_id := get (params req) "product_id" in
  try_next
    (product <- findByPk MProduct Products Product.product_id
                  product_id ;;
     match product with
     | Some product =>
         ret (Sent 200 (Data {|
           Product.product_id := Product.product_id product;
           Product.name := Product.name product;
           Product.description := Product.description product;
           Product.price := Product.price product;
           Product.discounted_price := Product.discounted_price product;
           Product.image := Product.image product;
           Product.image_2 := Product.image_2 product;
           Product.thumbnail := Product.thumbnail product;
           Product.display := Product.display product |}))
     | None =>
         ret (Sent 404 (ErrorEnvelope {|
           status := 404;
           code := "PRD_01";
           message := error "ProductError" "PRD_01" ++ " "
                      ++ to_string product_id;
           field := "product_id" |}))
     end)%await.

Definition getProductReviews (req : Request) : handler Review.row :=
  let product_id := get (params req) "product_id" in
  try_next
    (if truthy product_id then
       review <- findByPk MReview Reviews Review.review_id product_id ;;
       match review with
       | Some review => ret (Sent 200 (Data review))
       | None =>
           ret (Sent 404 (ErrorEnvelope {|
             status := 404;
             code := "REV_01";
             message := error "ReviewError" "REV_01" ++ " "
                        ++ to_string product_id;
             field := "product_id" |}))
       end
     else ret NoResponse)%await.

(** [Review.create] resolves to the new instance, an object, so the
    test [if (review)] after it always succeeds. *)
Definition postProductReviews (req : Request) : handler Receipt.t :=
  let metadata := {|
    Review.m_product_id := get (req_body req) "product_id";
    Review.m_review := get (req_body req) "review";
    Review.m_rating := get (req_body req) "rating";
    Review.m_customer_id := 0 |} in
  try_next
    (product <- findByPk MProduct Products Product.product_id
                  (Review.m_product_id metadata) ;;
     match product with
     | Some product =>
         review <- create_review metadata ;;
         ret (Sent 201 (Data {|
           Receipt.name := Product.name product;
           Receipt.review := Review.m_review metadata;
           Receipt.rating := Review.m_rating metadata;
           Receipt.created_on := Review.created_on review |}))
     | None =>
         ret (Sent 404 (ErrorEnvelope {|
           status := 404;
           code := "PRD_01";
           message := error "ProductError" "PRD_01" ++ " "
                      ++ to_string (Review.m_product_id metadata);
           field := "product_id" |}))
     end)%await.

Definition getAllDepartments (req : Request)
  : handler (list Department.row) :=
  try_next
    (departments <- findAll MDepartment Departments ;;
     ret (Sent 200 (Data departments)))%await.

Definition getDepartment (req : Request) : handler Department.row :=
  let department_id := get (params req) "department_id" in
  try_next
    (department <- findByPk MDepartment Departments
                     Department.department_id department_id ;;
     match department with
     | Some department => ret (Sent 200 (Data department))
     | None =>
         ret (Sent 404 (ErrorEnvelope {|
           status := 404;
           code := "DEP_02";
           message := " " ++ error "DepartmentError" "DEP_02"
                      ++ to_string department_id;
           field := "department_id" |}))
     end)%await.

Definition getAllCategories (req : Request)
  : handler (list Category.row) :=
  try_next
    (categories <- findAll MCategory Categories ;;
     ret (Sent 200 (Data categories)))%await.

Definition getSingleCategory (req : Request) : handler Category.row :=
  let category_id := get (params req) "category_id" in
  try_next
    (category <- findByPk MCategory Categories
                   Category.category_id category_id ;;
     match category with
     | Some category => ret (Sent 200 (Data category))
     | None =>
         ret (Sent 404 (ErrorEnvelope {|
           status := 404;
           code := "CAT_01";
           message := error "CategoryError" "CAT_01";
           field := "category_id" |}))
     end)%await.

Definition categories_of_department (department_id : jsval) (d : Db)
  : list Category.row :=
  map fst
    (join_parent Category.department_id Department.department_id
       (fun dep => key_eq department_id (Department.department_id dep))
       (Categories d) (Departments d)).

Definition getDepartmentCategories (req : Request)
  : handler (list Category.row) :=
  try_next
    (let limit := get (query req) "limit" in
     let offset := get (query req) "offset" in
     let department_id := get (params req) "department_id" in
     products <- findAndCountAll MCategory
                   (categories_of_department department_id)
                   limit offset ;;
     if count products =? 0 then
       ret (Sent 404 (ErrorEnvelope {|
         status := 404;
         code := "DEP_02";
         message := error "DepartmentError" "DEP_02" ++ " "
                    ++ to_string department_id;
         field := "department_id" |}))
     else ret (Sent 200 (Data (rows products))))%await.

Definition categories_of_product (product_id : jsval) (d : Db)
  : list Category.row :=
  map fst
    (join_through Category.category_id Product.product_id
       (map swap (ProductCategories d))
       (fun p => key_eq product_id (Product.product_id p))
       (Categories d) (Products d)).

Definition getCategoryOfProduct (req : Request)
  : handler (list Category.row) :=
  try_next
    (let product_id := get (params req) "product_id" in
     products <- findAndCountAll MCategory
                   (categories_of_product product_id)
                   JUndefined JUndefined ;;
     if count products =? 0 then
       ret (Sent 404 (ErrorEnvelope {|
         status := 404;
         code := "CAT_02";
         message := error "CategoryError" "CAT_01" ++ " "
                    ++ to_string product_id;
         field := "product_id" |}))
     else ret (Sent 200 (Data (rows products))))%await.

End Handlers.
End ProductController.

(** ** Notions the statements below are phrased in *)

(** [q] occurs in [s] as a literal substring. *)
Definition Substring (q s : string) : Prop :=
  exists pre post, s = pre ++ q ++ post.

(** [b] is the small letter of the capital [a], one of the twenty-six
    letters of ASCII. *)
Definition small_of_capital (a b : ascii) : bool :=
  ((65 <=? nat_of_ascii a) && (nat_of_ascii a <=? 90)
   && (nat_of_ascii b =? nat_of_ascii a + 32))%nat.

(** Two characters are the same letter when they are equal or one is the
    capital of the other. *)
Definition same_letter (a b : ascii) : bool :=
  Ascii.eqb a b || small_of_capital a b || small_of_capital b a.

(** Two texts are the same up to case when they have the same length and
    agree, place by place, as letters. *)
Fixpoint same_up_to_case (s t : string) : bool :=
  match s, t with
  | EmptyString, EmptyString => true
  | String a s', String b t' => same_letter a b && same_up_to_case s' t'
  | _, _ => false
  end.

(** [q] occurs in [s] up to the case of letters: some part of [s] is the
    same as [q] up to case. *)
Definition CaseInsensitiveSubstring (q s : string) : Prop :=
  exists pre mid post,
    s = pre ++ mid ++ post /\ same_up_to_case mid q = true.

(** The two ways of matching a product against a query. *)
Inductive matchMode : Type := ALL_FIELDS | NAME_ONLY.

(** The value of [all_words] that selects a mode. *)
Definition all_words_of (mode : matchMode) : string :=
  match mode with
  | ALL_FIELDS => "on"
  | NAME_ONLY => "off"
  end.

(** What it means for a product to match under a mode: its lowered
    serialisation holds the lowered query, or its name holds the query as
    it stands. *)
Definition Matches {ext : Collaborators} (mode : matchMode) (q : string)
    (p : Product.row) : Prop :=
  match mode with
  | ALL_FIELDS => Substring (toLowerCase q) (toLowerCase (stringify p))
  | NAME_ONLY => Substring q (Product.name p)
  end.

(** The rows of a paginated answer; none when the handler did not answer
    with data. *)
Definition answered_rows (o : outcome Pagination.envelope)
  : list Product.row :=
  match o with
  | Sent _ (Data env) => Pagination.rows env
  | _ => []
  end.

(** A not-found answer follows the catalog when its message is the
    template filed under the code it reports, followed by the identifier
    that was not found.  Other outcomes are not concerned. *)
Definition FollowsCatalog {ext : Collaborators} {A : Type}
    (group : string) (id : jsval) (o : outcome A) : Prop :=
  match o with
  | Sent http (ErrorEnvelope e) =>
      http = 404 /\ status e = 404 /\
      message e = error group (code e) ++ " " ++ to_string id
  | _ => True
  end.

(** An answer is well formed when an error body goes out with status 404,
    repeated inside the body, and a data body with status 200 or 201. *)
Definition WellFormed {A : Type} (o : outcome A) : Prop :=
  match o with
  | Sent http (ErrorEnvelope e) => http = 404 /\ status e = 404
  | Sent http (Data _) => http = 200 \/ http = 201
  | _ => True
  end.

(** The outcome of a handler that has no not-found path: data with status
    200, or an exception handed on. *)
Definition DataOrNext {A : Type} (o : outcome A) : Prop :=
  match o with
  | Sent http (Data _) => http = 200
  | Next _ => True
  | _ => False
  end.

(** A handler was quiet when the world it leaves is the one it found, but
    for at most one statement recorded. *)
Definition Quiet (w w' : World) : Prop :=
  w' = w \/ exists st, w' = logged st w.

(** The number of pages that the documentation of the pagination envelope
    asks for: [ceil(totalRecords / currentPageSize)]. *)
Definition pages_needed (totalRecords currentPageSize : Z) : Z :=
  (totalRecords + currentPageSize - 1) / currentPageSize.

(** ** A concrete store for running the handlers *)

Module Sample.

Definition decimal (k : Z) : string := NilZero.string_of_int (Z.to_int k).

Definition dq : string := String (ascii_of_nat 34) EmptyString.

Definition catalog (group code : string) : string :=
  if String.eqb code "ATR_01" then "Don't exist attribute with this ID"
  else if String.eqb code "ATR_02" then "Don't exist attributes for product"
  else if String.eqb code "PRD_01" then "Don't exist product with this ID"
  else if String.eqb code "PRD_02" then "Don't exist products in category"
  else if String.eqb code "PRD_03" then "Don't exist products in department"
  else if String.eqb code "REV_01" then "Don't exist review with this ID"
  else if String.eqb code "DEP_02" then "Don't exist department with this ID"
  else if String.eqb code "CAT_01" then "Don't exist category with this ID"
  else if String.eqb code "CAT_02" then "Don't exist category for product"
  else if String.eqb code "USR_10" then "is required"
  else "undefined".

Definition member (k : string) (v : string) : string :=
  dq ++ k ++ dq ++ ":" ++ dq ++ v ++ dq.

(** A serialisation of the text columns, without escapes. *)
Definition product_json (p : Product.row) : string :=
  "{" ++ member "name" (Product.name p) ++ ","
      ++ member "description" (Product.description p) ++ ","
      ++ member "price" (Product.price p) ++ "}".

(** Keys are compared as numbers; a text counts when it is the decimal
    numeral of the key. *)
Definition same_key (v : jsval) (k : Z) : bool :=
  match v with
  | JNum n => n =? k
  | JStr s => String.eqb s (decimal k)
  | _ => false
  end.

Definition numeral (v : jsval) : option nat :=
  match v with
  | JStr s =>
      match NilZero.int_of_string s with
      | Some (Decimal.Pos u) => Some (Nat.of_uint u)
      | _ => None
      end
  | _ => None
  end.

Definition is_defined (v : jsval) : bool := negb (eq_undefined v).

(** The text made of the given bytes. *)
Definition text (l : list nat) : string :=
  fold_right (fun n s => String (ascii_of_nat n) s) EmptyString l.

(** A fragment of the Unicode lowering, enough for the runs below: the
    letters of ASCII and the Greek capitals U+0391 to U+03A9 (the bytes CE
    91 to CE A9), with the rule of the final sigma; every other character
    is kept as it is. *)
Definition ascii_letter (c : ascii) : bool :=
  let n := nat_of_ascii c in
  ((65 <=? n) && (n <=? 90) || (97 <=? n) && (n <=? 122))%nat.

(** The characters of ASCII that the casing rules look through:
    apostrophe, full stop, colon, circumflex and grave accent. *)
Definition ascii_case_ignorable (c : ascii) : bool :=
  let n := nat_of_ascii c in
  ((n =? 39) || (n =? 46) || (n =? 58) || (n =? 94) || (n =? 96))%nat.

Definition greek_capital (c d : ascii) : bool :=
  ((nat_of_ascii c =? 206) && (145 <=? nat_of_ascii d)
   && (nat_of_ascii d <=? 169))%nat.

Definition greek_small (c d : ascii) : bool :=
  ((nat_of_ascii c =? 206) && (177 <=? nat_of_ascii d)
   && (nat_of_ascii d <=? 191)
   || (nat_of_ascii c =? 207) && (128 <=? nat_of_ascii d)
      && (nat_of_ascii d <=? 137))%nat.

Definition capital_sigma (c d : ascii) : bool :=
  ((nat_of_ascii c =? 206) && (nat_of_ascii d =? 163))%nat.

(** The small letter of the Greek capital CE [d]: thirty-two code points
    further, U+03B1 to U+03BF as CE B1 to CE BF, U+03C0 to U+03C9 as CF 80
    to CF 89. *)
Definition greek_small_of (d : ascii) : string :=
  if (nat_of_ascii d <=? 159)%nat
  then text [206; nat_of_ascii d + 32]%nat
  else text [207; nat_of_ascii d - 32]%nat.

(** The final sigma U+03C2 (the small sigma U+03C3 is CF 83). *)
Definition final_sigma : string := text [207; 130]%nat.

(** Whether a cased letter follows, looking through the characters that
    the casing rules ignore. *)
Fixpoint cased_ahead (s : string) : bool :=
  match s with
  | EmptyString => false
  | String c s' =>
      if ascii_case_ignorable c then cased_ahead s'
      else ascii_letter c
           || match s' with
              | String d _ => greek_capital c d || greek_small c d
              | EmptyString => false
              end
  end.

(** The lowering, knowing whether a cased letter came before (looking
    through ignored characters): a capital sigma after a cased letter and
    not before one becomes the final sigma. *)
Fixpoint lower_after (after_cased : bool) (s : string) : string :=
  match s with
  | EmptyString => EmptyString
  | String c s' =>
      let plain :=
        String (lower_char c)
          (lower_after
             (if ascii_letter c then true
              else if ascii_case_ignorable c then after_cased else false)
             s') in
      match s' with
      | String d s'' =>
          if greek_capital c d then
            (if capital_sigma c d && after_cased && negb (cased_ahead s'')
             then final_sigma else greek_small_of d)
            ++ lower_after true s''
          else if greek_small c d then
            String c (String d (lower_after true s''))
          else plain
      | EmptyString => plain
      end
  end.

Definition lowering : Unicode :=
  {| unicode_toLowerCase := lower_after false |}.

Definition collaborators : Collaborators := {|
  unicode := lowering;
  error := catalog;
  stringify := product_json;
  key_eq := same_key;
  text_bound := numeral;
  accepts := fun md =>
    is_defined (Review.m_review md) && is_defined (Review.m_rating md)
|}.

Definition product (i : Z) (n d : string) : Product.row := {|
  Product.product_id := i;
  Product.name := n;
  Product.description := d;
  Product.price := "14.99";
  Product.discounted_price := "0.00";
  Product.image := "a.gif";
  Product.image_2 := "b.gif";
  Product.thumbnail := "c.gif";
  Product.display := 0 |}.

Definition boots : Product.row :=
  product 1 "Alpine Boots" "A sturdy leather shoe for hiking".
Definition shirt : Product.row :=
  product 2 "Shoe Lace Shirt" "A shirt with laces".
Definition scarf : Product.row :=
  product 3 "Wool Scarf" "Warm and soft".

Definition colour : Attribute.row :=
  {| Attribute.attribute_id := 2; Attribute.name := "Color" |}.
Definition size : Attribute.row :=
  {| Attribute.attribute_id := 1; Attribute.name := "Size" |}.

Definition value (i a : Z) (v : string) : AttributeValue.row :=
  {| AttributeValue.attribute_value_id := i;
     AttributeValue.attribute_id := a;
     AttributeValue.value := v |}.

(** The review of key 2 is a review of product 1. *)
Definition praise : Review.row := {|
  Review.review_id := 2;
  Review.customer_id := 0;
  Review.product_id := JNum 1;
  Review.review := JStr "Fits well";
  Review.rating := JNum 5;
  Review.created_on := 1000 |}.

Definition tables : Db := {|
  Products := [boots; shirt; scarf];
  Departments := [{| Department.department_id := 1;
                     Department.name := "Regional" |}];
  Categories := [{| Category.category_id := 1;
                    Category.department_id := 1;
                    Category.name := "French" |}];
  Attributes := [size; colour];
  AttributeValues := [value 1 1 "S"; value 2 1 "M"; value 6 2 "White"];
  ProductAttributes := [(1, 1); (1, 6)];
  ProductCategories := [(1, 1)];
  Reviews := [praise] |}.

Definition world : World :=
  {| db := tables; connected := true; now := 2000; issued := [] |}.

(** A catalogue of forty-five products. *)
Definition many : Db := {|
  Products :=
    map (fun i => product (Z.of_nat i) "Item" "Plain") (seq 1 45);
  Departments := [];
  Categories := [];
  Attributes := [];
  AttributeValues := [];
  ProductAttributes := [];
  ProductCategories := [];
  Reviews := [] |}.

Definition busy_world : World :=
  {| db := many; connected := true; now := 2000; issued := [] |}.

Definition request (q p b : object) : Request :=
  {| query := q; params := p; req_body := b |}.

(** Requests. *)
Definition search (q w : string) : Request :=
  request [("query_string", JStr q); ("all_words", JStr w)] [] [].
Definition search_without_mode : Request :=
  request [("query_string", JStr "Shoe")] [] [].
Definition list_plain : Request := request [] [] [].
Definition list_page_of_twenty : Request :=
  request [("page", JStr "3"); ("limit", JStr "20")] [] [].
Definition review_for (product_id : Z) : Request :=
  request [] []
    [("product_id", JNum product_id); ("review", JStr "Too tight");
     ("rating", JNum 2); ("created_on", JNum 7)].
Definition values_for (attribute_id : string) : Request :=
  request [("limit", JStr "1"); ("offset", JStr "1")]
    [("attribute_id", JStr attribute_id)] [].
Definition by_product (product_id : string) : Request :=
  request [] [("product_id", JStr product_id)] [].
Definition by_category (category_id : string) : Request :=
  request [] [("category_id", JStr category_id)] [].

Definition by_department (department_id : string) : Request :=
  request [] [("department_id", JStr department_id)] [].
Definition by_attribute (attribute_id : string) : Request :=
  request [] [("attribute_id", JStr attribute_id)] [].
Definition values_past_the_end : Request :=
  request [("offset", JStr "7")] [("attribute_id", JStr "1")] [].
Definition review_without_product : Request :=
  request [] [] [("review", JStr "Too tight"); ("rating", JNum 2)].

(** A store whose one product is named with the Greek capitals alpha and
    sigma (U+0391 U+03A3, the bytes CE 91 CE A3). *)
Definition capital_alpha_sigma : string := text [206; 145; 206; 163]%nat.
Definition capital_sigma_text : string := text [206; 163]%nat.

Definition greek : World :=
  {| db := {| Products := [product 1 capital_alpha_sigma "Plain"];
              Departments := [];
              Categories := [];
              Attributes := [];
              AttributeValues := [];
              ProductAttributes := [];
              ProductCategories := [];
              Reviews := [] |};
     connected := true; now := 2000; issued := [] |}.

(** A store in which the boots are in two categories of department 1. *)
Definition two_categories : World :=
  {| db := {| Products := [boots; shirt];
              Departments := [{| Department.department_id := 1;
                                 Department.name := "Regional" |}];
              Categories := [{| Category.category_id := 1;
                                Category.department_id := 1;
                                Category.name := "French" |};
                             {| Category.category_id := 2;
                                Category.department_id := 1;
                                Category.name := "Italian" |}];
              Attributes := [];
              AttributeValues := [];
              ProductAttributes := [];
              ProductCategories := [(1, 1); (1, 2)];
              Reviews := [] |};
     connected := true; now := 2000; issued := [] |}.

(** The sample store with the connection down. *)
Definition offline : World :=
  {| db := tables; connected := false; now := 2000; issued := [] |}.

End Sample.

(** * Properties *)

(** ** Searching in strings *)

Section StringFacts.

Lemma startsWith_spec (s q : string) :
  startsWith s q = true <-> exists post, s = q ++ post.
Proof.
  revert s. induction q as [|b q IH]; intros s; simpl.
  - split; [intros _; now exists s | reflexivity].
  - destruct s as [|a s].
    + split; [discriminate | intros [post H]; discriminate].
    + rewrite andb_true_iff, Ascii.eqb_eq, IH. split.
      * intros [-> [post ->]]. now exists post.
      * intros [post H]. injection H as -> ->. split; [reflexivity|].
        now exists post.
Qed.

Lemma indexOf_from_range (i : Z) (s q : string) :
  indexOf_from i s q = -1 \/ i <= indexOf_from i s q.
Proof.
  revert i. induction s as [|a s IH]; intros i; simpl.
  - destruct (startsWith "" q); [right; lia | now left].
  - destruct (startsWith (String a s) q); [right; lia|].
    destruct (IH (i + 1)) as [H|H]; [now left | right; lia].
Qed.

Lemma Substring_cons (a : ascii) (s q : string) :
  Substring q (String a s) <->
  startsWith (String a s) q = true \/ Substring q s.
Proof.
  split.
  - intros [pre [post H]]. destruct pre as [|c pre].
    + left. apply startsWith_spec. exists post. exact H.
    + right. simpl in H. injection H as _ H. now exists pre, post.
  - intros [H|[pre [post H]]].
    + apply startsWith_spec in H. destruct H as [post H].
      exists "", post. exact H.
    + exists (String a pre), post. simpl. now rewrite H.
Qed.

Lemma indexOf_from_found (i : Z) (s q : string) :
  0 <= i -> (indexOf_from i s q <> -1 <-> Substring q s).
Proof.
  revert i. induction s as [|a s IH]; intros i Hi.
  - simpl. destruct (startsWith "" q) eqn:E.
    + split; [intros _ | lia].
      apply startsWith_spec in E. destruct E as [post E].
      exists "", post. exact E.
    + split; [congruence|]. intros [pre [post H]].
      destruct pre; [|discriminate]. simpl in H.
      assert (startsWith "" q = true) by (apply startsWith_spec; eauto).
      congruence.
  - cbn [indexOf_from]. rewrite Substring_cons.
    destruct (startsWith (String a s) q) eqn:E.
    + split; [now left | lia].
    + rewrite IH by lia. split; [now right|].
      intros [H|H]; [discriminate | exact H].
Qed.

(** [s.indexOf(q) !== -1] holds exactly when [q] occurs in [s]. *)
Lemma indexOf_found (s q : string) :
  negb (indexOf s q =? -1) = true <-> Substring q s.
Proof.
  unfold indexOf. rewrite negb_true_iff, Z.eqb_neq.
  apply indexOf_from_found. lia.
Qed.

Lemma ascii_lower_app (s t : string) :
  ascii_lower (s ++ t) = ascii_lower s ++ ascii_lower t.
Proof.
  induction s as [|c s IH]; simpl; [reflexivity | now rewrite IH].
Qed.

Lemma ascii_lower_split (s x y : string) :
  ascii_lower s = x ++ y ->
  exists a b, s = a ++ b /\ ascii_lower a = x /\ ascii_lower b = y.
Proof.
  revert s. induction x as [|c x IH]; intros s H.
  - exists "", s. now simpl in *.
  - destruct s as [|d s]; [discriminate|].
    simpl in H. injection H as Hc H.
    destruct (IH s H) as [a [b [-> [Ha Hb]]]].
    exists (String d a), b. simpl. now rewrite Hc, Ha, Hb.
Qed.

(** Two characters have the same lowering exactly when they are the same
    letter. *)
Lemma lower_char_same_letter (a b : ascii) :
  lower_char a = lower_char b <-> same_letter a b = true.
Proof.
  unfold same_letter, small_of_capital, lower_char.
  pose proof (nat_ascii_bounded a) as Ba.
  pose proof (nat_ascii_bounded b) as Bb.
  rewrite !orb_true_iff, !andb_true_iff, Ascii.eqb_eq,
    !Nat.leb_le, !Nat.eqb_eq.
  assert (Hinj : forall x y : ascii,
             nat_of_ascii x = nat_of_ascii y -> x = y).
  { intros x y E. rewrite <- (ascii_nat_embedding x),
      <- (ascii_nat_embedding y). now rewrite E. }
  destruct (Nat.leb_spec 65 (nat_of_ascii a)),
    (Nat.leb_spec (nat_of_ascii a) 90),
    (Nat.leb_spec 65 (nat_of_ascii b)),
    (Nat.leb_spec (nat_of_ascii b) 90); cbn [andb].
  all: split;
    [ intros E;
      first
        [ subst; now (left; left)
        | apply (f_equal nat_of_ascii) in E;
          rewrite ?nat_ascii_embedding in E by lia;
          first [ left; left; apply Hinj; lia
                | left; right; lia
                | right; lia ] ]
    | intros [[->|E]|E]; try reflexivity; try lia;
      apply Hinj; rewrite ?nat_ascii_embedding by lia; lia ].
Qed.

Lemma ascii_lower_same (s t : string) :
  ascii_lower s = ascii_lower t <-> same_up_to_case s t = true.
Proof.
  revert t. induction s as [|a s IH]; intros [|b t]; simpl;
    try (split; [discriminate | discriminate]); [tauto|].
  rewrite andb_true_iff, <- lower_char_same_letter, <- IH. split.
  - intros H. now injection H.
  - intros [-> ->]. reflexivity.
Qed.

(** Lowering both sides turns a literal search into a search up to
    case. *)
Lemma lowered_Substring (q s : string) :
  Substring (ascii_lower q) (ascii_lower s) <->
  CaseInsensitiveSubstring q s.
Proof.
  split.
  - intros [x [z H]].
    apply ascii_lower_split in H. destruct H as [pre [r [-> [<- H]]]].
    apply ascii_lower_split in H. destruct H as [mid [post [-> [H <-]]]].
    exists pre, mid, post. split; [reflexivity|].
    now apply ascii_lower_same.
  - intros [pre [mid [post [-> H]]]]. apply ascii_lower_same in H.
    exists (ascii_lower pre), (ascii_lower post).
    now rewrite !ascii_lower_app, H.
Qed.

Lemma filter_throwing_total {A : Type} (f : A -> bool) (l : list A) :
  filter_throwing (fun x => inr (f x)) l = inr (filter f l).
Proof.
  induction l as [|x l IH]; simpl; [reflexivity|].
  rewrite IH. now destruct (f x).
Qed.

End StringFacts.

(** ** The store *)

Section StoreFacts.
Context {ext : Collaborators}.
Import Orm.

Lemma In_firstn {R : Type} (n : nat) (l : list R) (x : R) :
  In x (firstn n l) -> In x l.
Proof.
  intros H. rewrite <- (firstn_skipn n l). apply in_or_app. now left.
Qed.

Lemma In_skipn {R : Type} (n : nat) (l : list R) (x : R) :
  In x (skipn n l) -> In x l.
Proof.
  intros H. rewrite <- (firstn_skipn n l). apply in_or_app. now right.
Qed.

(** A window shows rows of the list it is cut from. *)
Lemma In_page {R : Type} (lim off : option nat) (l : list R) (x : R) :
  In x (page lim off l) -> In x l.
Proof.
  unfold page. intros H.
  destruct lim as [n|]; [apply In_firstn in H|];
    (destruct off as [o|]; [now apply In_skipn in H | exact H]).
Qed.

Lemma length_page {R : Type} (n : nat) (off : option nat) (l : list R) :
  (length (page (Some n) off l) <= n)%nat.
Proof. unfold page. apply firstn_le_length. Qed.

(** A reachable store that can read the window answers with the count
    of all hits and the window of rows, and records the statement. *)
Lemma findAndCountAll_run {R : Type} (m : Model) (source : Db -> list R)
    (limit offset : jsval) (lim off : option nat) (w : World) :
  connected w = true ->
  bound limit = Some lim ->
  bound offset = Some off ->
  findAndCountAll m source limit offset w =
    (inr {| count := Z.of_nat (length (source (db w)));
            rows := page lim off (source (db w)) |},
     logged (FindAndCountAll m limit offset) w).
Proof.
  intros Hc Hl Ho. unfold findAndCountAll, send, read_db, bind.
  rewrite Hc. cbn [fst snd logged db]. rewrite Hl, Ho. reflexivity.
Qed.

(** [findAndCountAll] reads; it never changes a table. *)
Lemma findAndCountAll_reads {R : Type} (m : Model) (source : Db -> list R)
    (limit offset : jsval) (w : World) :
  snd (findAndCountAll m source limit offset w) =
    logged (FindAndCountAll m limit offset) w.
Proof.
  unfold findAndCountAll, send, read_db, bind.
  destruct (connected w); cbn; [|reflexivity].
  destruct (bound limit), (bound offset); reflexivity.
Qed.

(** [findByPk] reads too, and records at most its own statement. *)
Lemma findByPk_reads {R : Type} (m : Model) (table : Db -> list R)
    (pk : R -> Z) (key : jsval) (w : World) :
  snd (findByPk m table pk key w) = w \/
  snd (findByPk m table pk key w) = logged (FindByPk m key) w.
Proof.
  destruct key; cbn; try (now left);
    unfold bind, send; destruct (connected w); cbn; now right.
Qed.

Lemma count_zero {R : Type} (l : list R) :
  (Z.of_nat (length l) =? 0) = true <-> l = [].
Proof.
  rewrite Z.eqb_eq. destruct l; cbn [length]; split;
    try reflexivity; try discriminate; lia.
Qed.

(** The rows that [include] and [where] select for an attribute: the
    attribute values whose parent exists and is the one asked for. *)
Lemma In_join_parent {A B : Type} (fk : A -> Z) (pk : B -> Z)
    (cond : B -> bool) (ta : list A) (tb : list B) (a : A) (b : B) :
  In (a, b) (join_parent fk pk cond ta tb) <->
  In a ta /\ In b tb /\ fk a = pk b /\ cond b = true.
Proof.
  unfold join_parent. rewrite in_flat_map. split.
  - intros [a' [Ha H]]. apply in_map_iff in H.
    destruct H as [b' [E H]]. injection E as -> ->.
    apply filter_In in H. destruct H as [Hb H].
    apply andb_true_iff in H. destruct H as [H1 H2].
    apply Z.eqb_eq in H1. auto.
  - intros [Ha [Hb [H1 H2]]]. exists a. split; [exact Ha|].
    apply in_map_iff. exists b. split; [reflexivity|].
    apply filter_In. split; [exact Hb|].
    apply andb_true_iff. split; [now apply Z.eqb_eq | exact H2].
Qed.

Lemma In_values_of_attribute (attribute_id : jsval) (d : Db)
    (v : AttributeValue.row) :
  In v (map fst (AttributeController.values_of_attribute attribute_id d))
  <->
  In v (AttributeValues d) /\
  key_eq attribute_id (AttributeValue.attribute_id v) = true /\
  exists a, In a (Attributes d) /\
            Attribute.attribute_id a = AttributeValue.attribute_id v.
Proof.
  unfold AttributeController.values_of_attribute.
  rewrite in_map_iff. split.
  - intros [[v' a] [E H]]. cbn in E. subst v'.
    apply In_join_parent in H. destruct H as [Hv [Ha [E H]]].
    rewrite E. split; [exact Hv|]. split; [exact H|]. now exists a.
  - intros [Hv [H [a [Ha E]]]]. exists (v, a). split; [reflexivity|].
    apply In_join_parent. rewrite E. auto.
Qed.

End StoreFacts.

(** ** The product listing *)

Section Listing.
Context {ext : Collaborators}.
Import Orm ProductController.

(** On a reachable store whose offset can be read, the listing answers
    200 with the first page of size one; the page number, the page size
    and the number of pages are the literals 1, 1 and 20. *)
Lemma getAllProducts_run (req : Request) (w : World) (off : option nat) :
  connected w = true ->
  bound (get (query req) "offset") = Some off ->
  getAllProducts req w =
    (Sent 200 (Data {|
       Pagination.paginationMeta := {|
         Pagination.currentPage := 1;
         Pagination.currentPageSize := 1;
         Pagination.totalPages := 20;
         Pagination.totalRecords :=
           Z.of_nat (length (Products (db w))) |};
       Pagination.rows := page (Some 1%nat) off (Products (db w)) |}),
     logged (FindAndCountAll MProduct (JNum 1)
               (get (query req) "offset")) w).
Proof.
  intros Hc Ho. unfold getAllProducts, try_next, bind.
  cbn [SqlQueryMap.limit SqlQueryMap.offset SqlQueryMap.page
       SqlQueryMap.totalPages].
  rewrite (findAndCountAll_run MProduct Products (JNum 1) _
             (Some 1%nat) off w Hc eq_refl Ho).
  reflexivity.
Qed.

Lemma getAllProducts_rows (req : Request) (w : World) :
  exists off,
    answered_rows (fst (getAllProducts req w)) = [] \/
    answered_rows (fst (getAllProducts req w)) =
      page (Some 1%nat) off (Products (db w)).
Proof.
  unfold getAllProducts, try_next, findAndCountAll, send, read_db, bind.
  cbn [SqlQueryMap.limit SqlQueryMap.offset].
  destruct (connected w); cbn; [|exists None; now left].
  destruct (bound (get (query req) "offset")) as [off|]; cbn.
  - exists off. now right.
  - exists None. now left.
Qed.

(** C9.  Whatever [page] and [limit] a request carries, the listing sends
    the same statement, with the literal limit 1 and the request's
    offset, and behaves the same: two requests with the same offset get
    the same outcome.  The rows of the answer number at most one. *)
Theorem getAllProducts_limit_is_one (req req' : Request) (w : World) :
  get (query req) "offset" = get (query req') "offset" ->
  getAllProducts req' w = getAllProducts req w /\
  issued (snd (getAllProducts req w)) =
    FindAndCountAll MProduct (JNum 1) (get (query req) "offset")
      :: issued w /\
  (length (answered_rows (fst (getAllProducts req w))) <= 1)%nat.
Proof.
  intros Ho. split; [|split].
  - unfold getAllProducts. now rewrite Ho.
  - unfold getAllProducts, try_next, bind.
    cbn [SqlQueryMap.limit SqlQueryMap.offset].
    pose proof (findAndCountAll_reads MProduct Products (JNum 1)
                  (get (query req) "offset") w) as H.
    destruct (findAndCountAll MProduct Products (JNum 1)
                (get (query req) "offset") w) as [[e|c] w'];
      cbn in H |- *; now rewrite H.
  - destruct (getAllProducts_rows req w) as [off [H|H]]; rewrite H.
    + cbn. lia.
    + apply length_page.
Qed.

End Listing.

(** ** Searching products *)

Section Search.
Context {ext : Collaborators}.
Import Orm ProductController.

(** C8.  When [query_string] or [all_words] is missing the search answers
    404 with code [USR_10], names a missing parameter in [field] and in
    the message, and leaves the world as it found it: no statement is
    sent to the store. *)
Theorem searchProduct_missing_parameter (req : Request) (w : World) :
  eq_undefined (get (query req) "query_string") = true \/
  eq_undefined (get (query req) "all_words") = true ->
  exists missing,
    (missing = "all_words" \/ missing = "query_string") /\
    eq_undefined (get (query req) missing) = true /\
    searchProduct req w =
      (Sent 404 (ErrorEnvelope {|
         status := 404;
         code := "USR_10";
         message := missing ++ " " ++ error "UsersError" "USR_10";
         field := missing |}), w).
Proof.
  intros H. unfold searchProduct.
  destruct (eq_undefined (get (query req) "all_words")) eqn:Ea.
  - exists "all_words". auto.
  - destruct H as [H|H]; [|discriminate].
    exists "query_string". rewrite H. auto.
Qed.

End Search.

Section SearchModes.
Context {ext : Collaborators}.
Import Orm ProductController.

(** With both parameters present, [all_words] a string and the store
    reachable, the search reads every product and then branches on the
    lowered [all_words]. *)
Lemma searchProduct_run (req : Request) (w : World) (aw : string) :
  get (query req) "all_words" = JStr aw ->
  eq_undefined (get (query req) "query_string") = false ->
  connected w = true ->
  searchProduct req w =
    ((if String.eqb (toLowerCase aw) "on" then
        match filter_throwing
                (matches_any_field (get (query req) "query_string"))
                (Products (db w)) with
        | inl e => Next e
        | inr data => Sent 200 (Data data)
        end
      else if String.eqb (toLowerCase aw) "off" then
        Sent 200 (Data (filter
                          (matches_name (get (query req) "query_string"))
                          (Products (db w))))
      else NoResponse),
     logged (FindAndCountAll MProduct JUndefined JUndefined) w).
Proof.
  intros Ha Hq Hc. unfold searchProduct. rewrite Ha, Hq.
  cbn [eq_undefined]. unfold try_next, bind.
  rewrite (findAndCountAll_run MProduct Products JUndefined JUndefined
             None None w Hc eq_refl eq_refl).
  cbn [call_toLowerCase lift ret rows page].
  destruct (String.eqb (toLowerCase aw) "on").
  - destruct (filter_throwing _ _); reflexivity.
  - destruct (String.eqb (toLowerCase aw) "off"); reflexivity.
Qed.

(** C10.  When both parameters are present and [all_words], lowered, is
    neither [on] nor [off], the search reads the products and then
    returns without answering and without calling [next]. *)
Theorem searchProduct_no_response (req : Request) (w : World)
    (aw : string) :
  get (query req) "all_words" = JStr aw ->
  eq_undefined (get (query req) "query_string") = false ->
  toLowerCase aw <> "on" ->
  toLowerCase aw <> "off" ->
  connected w = true ->
  searchProduct req w =
    (NoResponse, logged (FindAndCountAll MProduct JUndefined JUndefined) w).
Proof.
  intros Ha Hq Hon Hoff Hc.
  rewrite (searchProduct_run req w aw Ha Hq Hc).
  apply String.eqb_neq in Hon, Hoff. now rewrite Hon, Hoff.
Qed.

Lemma matches_any_field_spec (q : string) (p : Product.row) :
  negb (indexOf (toLowerCase (stringify p)) (toLowerCase q) =? -1) = true
  <-> Substring (toLowerCase q) (toLowerCase (stringify p)).
Proof. apply indexOf_found. Qed.

Lemma matches_name_spec (q : string) (p : Product.row) :
  matches_name (JStr q) p = true <-> Substring q (Product.name p).
Proof. unfold matches_name. cbn [to_string]. apply indexOf_found. Qed.

Lemma toLowerCase_ascii (s : string) :
  is_ascii s = true -> toLowerCase s = ascii_lower s.
Proof. intros H. unfold toLowerCase. now rewrite H. Qed.

(** On texts of ASCII, holding the lowered query once lowered is holding
    the query up to case. *)
Lemma lowered_match_up_to_case (q s : string) :
  is_ascii q = true ->
  is_ascii s = true ->
  Substring (toLowerCase q) (toLowerCase s) <->
  CaseInsensitiveSubstring q s.
Proof.
  intros Hq Hs. rewrite (toLowerCase_ascii q Hq), (toLowerCase_ascii s Hs).
  apply lowered_Substring.
Qed.

(** C2, as amended.  On the products read from the store, the search with
    [all_words] selecting [ALL_FIELDS] answers 200 with exactly the
    products whose lowered serialised record contains the lowered query as
    a literal substring, and with [all_words] selecting [NAME_ONLY]
    exactly those whose name contains the query literally; in both modes
    the products keep their order.  When the query and the serialised
    record are texts of ASCII, the products of [ALL_FIELDS] are exactly
    those whose record contains the query up to the case of letters. *)
Theorem searchProduct_match_modes (mode : matchMode) (req : Request)
    (w : World) (q aw : string) :
  get (query req) "query_string" = JStr q ->
  get (query req) "all_words" = JStr aw ->
  toLowerCase aw = all_words_of mode ->
  connected w = true ->
  exists keep : Product.row -> bool,
    fst (searchProduct req w) =
      Sent 200 (Data (filter keep (Products (db w)))) /\
    (forall p, keep p = true <-> Matches mode q p) /\
    (forall p,
       mode = ALL_FIELDS ->
       is_ascii q = true ->
       is_ascii (stringify p) = true ->
       (keep p = true <-> CaseInsensitiveSubstring q (stringify p))).
Proof.
  intros Hq Ha Hm Hc.
  assert (Hd : eq_undefined (get (query req) "query_string") = false)
    by now rewrite Hq.
  rewrite (searchProduct_run req w aw Ha Hd Hc), Hq, Hm.
  destruct mode; cbn [all_words_of fst Matches].
  - exists (fun p =>
              negb (indexOf (toLowerCase (stringify p)) (toLowerCase q)
                    =? -1)).
    split; [|split].
    + cbn [String.eqb Ascii.eqb Bool.eqb andb].
      unfold matches_any_field. cbn [call_toLowerCase].
      now rewrite filter_throwing_total.
    + intros p. apply matches_any_field_spec.
    + intros p _ Hqa Hsa.
      rewrite matches_any_field_spec.
      now apply lowered_match_up_to_case.
  - exists (matches_name (JStr q)).
    split; [reflexivity|]. split.
    + intros p. apply matches_name_spec.
    + intros p H. discriminate H.
Qed.

End SearchModes.

(** ** Reviews *)

Section Reviews.
Context {ext : Collaborators}.
Import Orm ProductController.

(** A lookup that finds a row had a number or a string for key and a
    reachable store. *)
Lemma findByPk_found {R : Type} (m : Model) (table : Db -> list R)
    (pk : R -> Z) (key : jsval) (w : World) (r : R) :
  fst (findByPk m table pk key w) = inr (Some r) ->
  connected w = true /\
  find (fun x => key_eq key (pk x)) (table (db w)) = Some r /\
  snd (findByPk m table pk key w) = logged (FindByPk m key) w.
Proof.
  destruct key; cbn; try discriminate;
    unfold send, read_db, bind; destruct (connected w); cbn;
    try discriminate; intros H; injection H as H; auto.
Qed.

(** C3.  When the lookup of the body's [product_id] among the products
    finds no row, the handler answers 404 with code [PRD_01] and field
    [product_id]; the tables are as before, and the only statement it may
    have sent is that lookup: nothing is written to the reviews. *)
Theorem postProductReviews_unknown_product (req : Request) (w : World) :
  fst (findByPk MProduct Products Product.product_id
         (get (req_body req) "product_id") w) = inr None ->
  fst (postProductReviews req w) =
    Sent 404 (ErrorEnvelope {|
      status := 404;
      code := "PRD_01";
      message := error "ProductError" "PRD_01" ++ " "
                 ++ to_string (get (req_body req) "product_id");
      field := "product_id" |}) /\
  db (snd (postProductReviews req w)) = db w /\
  forall st, In st (issued (snd (postProductReviews req w))) ->
    st = FindByPk MProduct (get (req_body req) "product_id") \/
    In st (issued w).
Proof.
  intros H. unfold postProductReviews, try_next, bind.
  cbn [Review.m_product_id].
  pose proof (findByPk_reads MProduct Products Product.product_id
                (get (req_body req) "product_id") w) as Hw.
  destruct (findByPk MProduct Products Product.product_id
              (get (req_body req) "product_id") w) as [[e|[p|]] w'];
    cbn in H; try discriminate.
  cbn in Hw |- *. split; [reflexivity|].
  destruct Hw as [->| ->]; cbn; split; auto.
  intros st [<-|Hst]; auto.
Qed.

(** C4.  When the lookup finds a product and the store accepts the row,
    the handler answers 201 with a receipt that carries the product's
    name, the body's review and rating, and the creation time of the row
    [r] that the store appended to the reviews; that time is the store's
    clock, and the customer of [r] is the constant 0. *)
Theorem postProductReviews_existing_product (req : Request) (w : World)
    (product : Product.row) :
  fst (findByPk MProduct Products Product.product_id
         (get (req_body req) "product_id") w) = inr (Some product) ->
  accepts {| Review.m_product_id := get (req_body req) "product_id";
             Review.m_review := get (req_body req) "review";
             Review.m_rating := get (req_body req) "rating";
             Review.m_customer_id := 0 |} = true ->
  exists r : Review.row,
    fst (postProductReviews req w) =
      Sent 201 (Data {|
        Receipt.name := Product.name product;
        Receipt.review := get (req_body req) "review";
        Receipt.rating := get (req_body req) "rating";
        Receipt.created_on := Review.created_on r |}) /\
    Reviews (db (snd (postProductReviews req w))) =
      (Reviews (db w) ++ [r])%list /\
    Review.created_on r = now w /\
    Review.customer_id r = 0 /\
    Review.product_id r = get (req_body req) "product_id".
Proof.
  intros H Hacc. pose proof (findByPk_found _ _ _ _ _ _ H) as [Hc [_ Hw]].
  eexists. unfold postProductReviews, try_next, bind.
  cbn [Review.m_product_id Review.m_review Review.m_rating].
  destruct (findByPk MProduct Products Product.product_id
              (get (req_body req) "product_id") w) as [[e|[p|]] w'];
    cbn in H; try discriminate.
  injection H as ->. cbn in Hw. subst w'.
  unfold create_review, send, read_db, read_clock, write_reviews, bind.
  cbn [connected logged fst snd]. rewrite Hc, Hacc. cbn.
  repeat split; reflexivity.
Qed.

(** C6.  For a path parameter that is a non-empty string and a reachable
    store, the handler looks among the reviews for the row whose own key
    [review_id] the parameter denotes.  It answers 200 with that one row,
    or 404 with code [REV_01] and field [product_id] when there is none.
    The column [product_id] of the reviews plays no part. *)
Theorem getProductReviews_by_review_key (req : Request) (w : World)
    (s : string) :
  get (params req) "product_id" = JStr s ->
  s <> "" ->
  connected w = true ->
  fst (getProductReviews req w) =
    match find (fun r => key_eq (JStr s) (Review.review_id r))
               (Reviews (db w)) with
    | Some review => Sent 200 (Data review)
    | None =>
        Sent 404 (ErrorEnvelope {|
          status := 404;
          code := "REV_01";
          message := error "ReviewError" "REV_01" ++ " " ++ s;
          field := "product_id" |})
    end.
Proof.
  intros Hp Hs Hc. unfold getProductReviews. rewrite Hp.
  cbn [truthy to_string]. apply String.eqb_neq in Hs. rewrite Hs.
  cbn [negb findByPk]. unfold try_next, send, read_db, bind.
  rewrite Hc. cbn.
  destruct (find _ _); reflexivity.
Qed.

End Reviews.

(** ** Attribute values *)

Section Attributes.
Context {ext : Collaborators}.
Import Orm AttributeController.

(** C5.  On a reachable store that can read the window, the handler
    answers 404 with code [ATR_01] when no attribute value is associated
    with the attribute, and otherwise 200 with a window of the associated
    values; every row it shows is an attribute value whose parent
    attribute key is the one asked for. *)
Theorem getAttributeValues_of_attribute (req : Request) (w : World)
    (lim off : option nat) :
  connected w = true ->
  bound (get (query req) "limit") = Some lim ->
  bound (get (query req) "offset") = Some off ->
  fst (getAttributeValues req w) =
    match map fst (values_of_attribute (get (params req) "attribute_id")
                     (db w)) with
    | [] =>
        Sent 404 (ErrorEnvelope {|
          status := 404;
          code := "ATR_01";
          message := error "AttributeError" "ATR_01" ++ " "
                     ++ to_string (get (params req) "attribute_id");
          field := "attribute_id" |})
    | _ :: _ =>
        Sent 200 (Data (page lim off
          (map fst (values_of_attribute (get (params req) "attribute_id")
                      (db w)))))
    end /\
  forall v,
    In v (page lim off
            (map fst (values_of_attribute (get (params req) "attribute_id")
                        (db w)))) ->
    In v (AttributeValues (db w)) /\
    key_eq (get (params req) "attribute_id")
           (AttributeValue.attribute_id v) = true.
Proof.
  intros Hc Hl Ho. split.
  - unfold getAttributeValues, try_next, bind.
    rewrite (findAndCountAll_run MAttributeValue _ _ _ lim off w Hc Hl Ho).
    cbn [count rows].
    destruct (map fst _) eqn:E; reflexivity.
  - intros v Hv. apply In_page, In_values_of_attribute in Hv.
    destruct Hv as [H1 [H2 _]]. auto.
Qed.

End Attributes.

(** ** The pagination metadata and the not-found messages *)

Section Constants.
Context {ext : Collaborators}.
Import Orm ProductController.

Lemma pages_needed_one (n : Z) : pages_needed n 1 = n.
Proof. unfold pages_needed. rewrite Z.div_1_r. lia. Qed.

(** The number of pages in the envelope is the literal 20: whenever the
    catalogue does not hold exactly twenty products it is not the number
    of pages that the records and the page size of the same envelope
    call for. *)
Lemma getAllProducts_totalPages_off (req : Request) (w : World)
    (off : option nat) :
  connected w = true ->
  bound (get (query req) "offset") = Some off ->
  length (Products (db w)) <> 20%nat ->
  exists env,
    fst (getAllProducts req w) = Sent 200 (Data env) /\
    Pagination.totalPages (Pagination.paginationMeta env) <>
      pages_needed
        (Pagination.totalRecords (Pagination.paginationMeta env))
        (Pagination.currentPageSize (Pagination.paginationMeta env)).
Proof.
  intros Hc Ho Hn. rewrite (getAllProducts_run req w off Hc Ho).
  eexists. split; [reflexivity|].
  cbn [Pagination.totalPages Pagination.totalRecords
       Pagination.currentPageSize Pagination.paginationMeta].
  rewrite pages_needed_one. lia.
Qed.

(** A product without categories: the code of the answer is [CAT_02],
    the message is the template filed under [CAT_01]. *)
Lemma getCategoryOfProduct_not_found (req : Request) (w : World) :
  connected w = true ->
  categories_of_product (get (params req) "product_id") (db w) = [] ->
  fst (getCategoryOfProduct req w) =
    Sent 404 (ErrorEnvelope {|
      status := 404;
      code := "CAT_02";
      message := error "CategoryError" "CAT_01" ++ " "
                 ++ to_string (get (params req) "product_id");
      field := "product_id" |}).
Proof.
  intros Hc He. unfold getCategoryOfProduct, try_next, bind.
  rewrite (findAndCountAll_run MCategory _ JUndefined JUndefined
             None None w Hc eq_refl eq_refl).
  rewrite He. reflexivity.
Qed.

(** An unknown category: the message is the bare template, whatever the
    identifier was. *)
Lemma getSingleCategory_not_found (req : Request) (w : World) :
  fst (findByPk MCategory Categories Category.category_id
         (get (params req) "category_id") w) = inr None ->
  fst (getSingleCategory req w) =
    Sent 404 (ErrorEnvelope {|
      status := 404;
      code := "CAT_01";
      message := error "CategoryError" "CAT_01";
      field := "category_id" |}).
Proof.
  intros H. unfold getSingleCategory, try_next, bind.
  destruct (findByPk MCategory Categories Category.category_id
              (get (params req) "category_id") w) as [[e|[c|]] w'];
    cbn in H; try discriminate.
  reflexivity.
Qed.

(** X18.  The other handlers that answer "not found" after a store call
    follow the catalog: whatever the request and the store, the message of
    a 404 is the template filed under the code it reports, a space, and
    the identifier that was looked for. *)
Lemma siblings_follow_catalog (req : Request) (w : World) :
  FollowsCatalog "AttributeError" (get (params req) "attribute_id")
    (fst (AttributeController.getSingleAttribute req w)) /\
  FollowsCatalog "AttributeError" (get (params req) "attribute_id")
    (fst (AttributeController.getAttributeValues req w)) /\
  FollowsCatalog "AttributeError" (get (params req) "product_id")
    (fst (AttributeController.getProductAttributes req w)) /\
  FollowsCatalog "ProductError" (get (params req) "category_id")
    (fst (getProductsByCategory req w)) /\
  FollowsCatalog "ProductError" (get (params req) "department_id")
    (fst (getProductsByDepartment req w)) /\
  FollowsCatalog "ProductError" (get (params req) "product_id")
    (fst (getProduct req w)) /\
  FollowsCatalog "ReviewError" (get (params req) "product_id")
    (fst (getProductReviews req w)) /\
  FollowsCatalog "ProductError" (get (req_body req) "product_id")
    (fst (postProductReviews req w)) /\
  FollowsCatalog "DepartmentError" (get (params req) "department_id")
    (fst (getDepartmentCategories req w)).
Proof.
  repeat split.
  all: unfold AttributeController.getSingleAttribute,
         AttributeController.getAttributeValues,
         AttributeController.getProductAttributes,
         getProductsByCategory, getProductsByDepartment, getProduct,
         getProductReviews, postProductReviews, getDepartmentCategories,
         try_next, bind.
  all: try (destruct (truthy (get (params req) "product_id"));
            [|exact I]).
  all: match goal with
       | |- context [findAndCountAll ?m ?s ?l ?o ?w0] =>
           destruct (findAndCountAll m s l o w0) as [[e|c] w1]
       | |- context [findByPk ?m ?t ?k ?v ?w0] =>
           destruct (findByPk m t k v w0) as [[e|[r|]] w1]
       end; cbn; auto.
  all: try (destruct (count c =? 0); cbn; auto).
  destruct (create_review _ w1) as [[e|r'] w2]; cbn; auto.
Qed.

End Constants.

(** ** Runs on the sample store *)

Section Runs.
Import Orm ProductController AttributeController Sample.
#[local] Existing Instance collaborators.

(** C1.  The documentation of the envelope calls [totalPages] the total
    number of pages for all products.  On a catalogue of forty-five
    products, asked for pages of twenty, the listing answers with
    [totalRecords] 45, the true count, but with [currentPageSize] 1 and
    [totalPages] 20: neither the 45 pages that records and page size of
    the envelope call for, nor the 3 pages of twenty. *)
Theorem getAllProducts_forty_five_products :
  fst (getAllProducts list_page_of_twenty busy_world) =
    Sent 200 (Data {|
      Pagination.paginationMeta := {|
        Pagination.currentPage := 1;
        Pagination.currentPageSize := 1;
        Pagination.totalPages := 20;
        Pagination.totalRecords := 45 |};
      Pagination.rows := [product 1 "Item" "Plain"] |}) /\
  pages_needed 45 1 = 45 /\
  pages_needed 45 20 = 3.
Proof. repeat split; vm_compute; reflexivity. Qed.

(** C7.  Asked for the category of a product that has none, the handler
    answers with code [CAT_02] and a message built from the template filed
    under [CAT_01], which is not the message that the template of [CAT_02]
    gives; asked for an unknown category, it answers with the bare
    template of [CAT_01], the identifier left out.  Neither answer follows
    the catalog. *)
Theorem not_found_messages_off_catalog :
  fst (getCategoryOfProduct (by_product "2") world) =
    Sent 404 (ErrorEnvelope {|
      status := 404;
      code := "CAT_02";
      message := catalog "CategoryError" "CAT_01" ++ " 2";
      field := "product_id" |}) /\
  ~ FollowsCatalog "CategoryError" (JStr "2")
      (fst (getCategoryOfProduct (by_product "2") world)) /\
  fst (getSingleCategory (by_category "4") world) =
    Sent 404 (ErrorEnvelope {|
      status := 404;
      code := "CAT_01";
      message := catalog "CategoryError" "CAT_01";
      field := "category_id" |}) /\
  ~ FollowsCatalog "CategoryError" (JStr "4")
      (fst (getSingleCategory (by_category "4") world)).
Proof.
  split; [reflexivity|]. split; [|split; [reflexivity|]].
  - intros [_ [_ H]]. vm_compute in H. discriminate H.
  - intros [_ [_ H]]. vm_compute in H. discriminate H.
Qed.

(** The search of the specification's examples. *)
Example search_SHOE_in_all_fields :
  fst (searchProduct (search "SHOE" "on") world) =
    Sent 200 (Data [boots; shirt]).
Proof. reflexivity. Qed.

Example search_Shoe_in_names :
  fst (searchProduct (search "Shoe" "off") world) = Sent 200 (Data [shirt]).
Proof. reflexivity. Qed.

Example search_shoe_in_names :
  fst (searchProduct (search "shoe" "off") world) = Sent 200 (Data []).
Proof. reflexivity. Qed.

(** The review of key 2 belongs to product 1: asking for the reviews of
    product 2 shows it, asking for those of product 1 finds nothing. *)
Example reviews_of_product_two :
  fst (getProductReviews (by_product "2") world) = Sent 200 (Data praise).
Proof. reflexivity. Qed.

Example reviews_of_product_one :
  fst (getProductReviews (by_product "1") world) =
    Sent 404 (ErrorEnvelope {|
      status := 404;
      code := "REV_01";
      message := "Don't exist review with this ID 1";
      field := "product_id" |}).
Proof. reflexivity. Qed.

Lemma getAllProducts_limit_is_one_witness :
  get (query list_plain) "offset"
    = get (query list_page_of_twenty) "offset" /\
  (getAllProducts list_page_of_twenty busy_world
     = getAllProducts list_plain busy_world /\
   issued (snd (getAllProducts list_plain busy_world)) =
     FindAndCountAll MProduct (JNum 1) (get (query list_plain) "offset")
       :: issued busy_world /\
   (length (answered_rows (fst (getAllProducts list_plain busy_world)))
    <= 1)%nat).
Proof.
  split; [reflexivity|].
  apply (getAllProducts_limit_is_one list_plain list_page_of_twenty
           busy_world).
  reflexivity.
Defined.

Lemma searchProduct_missing_parameter_witness :
  exists missing,
    (missing = "all_words" \/ missing = "query_string") /\
    eq_undefined (get (query search_without_mode) missing) = true /\
    searchProduct search_without_mode world =
      (Sent 404 (ErrorEnvelope {|
         status := 404;
         code := "USR_10";
         message := missing ++ " " ++ error "UsersError" "USR_10";
         field := missing |}), world).
Proof.
  apply (searchProduct_missing_parameter search_without_mode world).
  right. reflexivity.
Defined.

Lemma searchProduct_no_response_witness :
  searchProduct (search "Shoe" "maybe") world =
    (NoResponse,
     logged (FindAndCountAll MProduct JUndefined JUndefined) world).
Proof.
  apply (searchProduct_no_response (search "Shoe" "maybe") world "maybe");
    try reflexivity; vm_compute; discriminate.
Defined.

Lemma searchProduct_match_modes_witness :
  (exists keep : Product.row -> bool,
     fst (searchProduct (search "SHOE" "on") world) =
       Sent 200 (Data (filter keep (Products (db world)))) /\
     (forall p, keep p = true <-> Matches ALL_FIELDS "SHOE" p) /\
     (forall p,
        ALL_FIELDS = ALL_FIELDS ->
        is_ascii "SHOE" = true ->
        is_ascii (stringify p) = true ->
        (keep p = true <-> CaseInsensitiveSubstring "SHOE" (stringify p))))
  /\
  (exists keep : Product.row -> bool,
     fst (searchProduct (search "Shoe" "off") world) =
       Sent 200 (Data (filter keep (Products (db world)))) /\
     (forall p, keep p = true <-> Matches NAME_ONLY "Shoe" p) /\
     (forall p,
        NAME_ONLY = ALL_FIELDS ->
        is_ascii "Shoe" = true ->
        is_ascii (stringify p) = true ->
        (keep p = true <-> CaseInsensitiveSubstring "Shoe" (stringify p)))).
Proof.
  split.
  - apply (searchProduct_match_modes ALL_FIELDS (search "SHOE" "on")
             world "SHOE" "on"); reflexivity.
  - apply (searchProduct_match_modes NAME_ONLY (search "Shoe" "off")
             world "Shoe" "off"); reflexivity.
Defined.

(** C2, as first stated, fails where the lowering depends on the context
    of a letter.  The one product of the store is named with the capitals
    alpha and sigma; the query is the capital sigma.  The serialised
    record contains the query as it stands, so also up to case.  The
    lowered record ends the name in a final sigma, the lowered query is a
    small sigma: the search with [all_words] on answers with no product. *)
Lemma searchProduct_match_modes_counterexample :
  fst (searchProduct (search capital_sigma_text "on") greek)
    = Sent 200 (Data []) /\
  Substring capital_sigma_text
    (stringify (product 1 capital_alpha_sigma "Plain")) /\
  ~ (exists keep : Product.row -> bool,
       fst (searchProduct (search capital_sigma_text "on") greek) =
         Sent 200 (Data (filter keep (Products (db greek)))) /\
       forall p, keep p = true <->
                 CaseInsensitiveSubstring capital_sigma_text (stringify p)).
Proof.
  assert (Hs : Substring capital_sigma_text
                 (stringify (product 1 capital_alpha_sigma "Plain"))).
  { exists ("{" ++ dq ++ "name" ++ dq ++ ":" ++ dq ++ text [206; 145]%nat),
           (dq ++ "," ++ member "description" "Plain" ++ ","
               ++ member "price" "14.99" ++ "}").
    reflexivity. }
  split; [reflexivity|]. split; [exact Hs|].
  intros [keep [Hf Hk]].
  assert (Hp : keep (product 1 capital_alpha_sigma "Plain") = true).
  { apply Hk. destruct Hs as [pre [post Hs]].
    exists pre, capital_sigma_text, post. split; [exact Hs | reflexivity]. }
  change (fst (searchProduct (search capital_sigma_text "on") greek))
    with (@Sent (list Product.row) 200 (Data [])) in Hf.
  cbn [greek db Products filter] in Hf. rewrite Hp in Hf. discriminate Hf.
Qed.

Lemma postProductReviews_unknown_product_witness :
  fst (postProductReviews (review_for 9) world) =
    Sent 404 (ErrorEnvelope {|
      status := 404;
      code := "PRD_01";
      message := error "ProductError" "PRD_01" ++ " "
                 ++ to_string (get (req_body (review_for 9)) "product_id");
      field := "product_id" |}) /\
  db (snd (postProductReviews (review_for 9) world)) = db world /\
  forall st, In st (issued (snd (postProductReviews (review_for 9) world)))
    -> st = FindByPk MProduct (get (req_body (review_for 9)) "product_id")
       \/ In st (issued world).
Proof.
  apply (postProductReviews_unknown_product (review_for 9) world).
  reflexivity.
Defined.

Lemma postProductReviews_existing_product_witness :
  exists r : Review.row,
    fst (postProductReviews (review_for 2) world) =
      Sent 201 (Data {|
        Receipt.name := "Shoe Lace Shirt";
        Receipt.review := JStr "Too tight";
        Receipt.rating := JNum 2;
        Receipt.created_on := Review.created_on r |}) /\
    Reviews (db (snd (postProductReviews (review_for 2) world))) =
      [praise; r] /\
    Review.created_on r = 2000 /\
    Review.customer_id r = 0 /\
    Review.product_id r = JNum 2.
Proof.
  apply (postProductReviews_existing_product (review_for 2) world shirt);
    reflexivity.
Defined.

Lemma getAttributeValues_of_attribute_witness :
  (fst (getAttributeValues (values_for "1") world) =
     Sent 200 (Data [value 2 1 "M"]) /\
   forall v, In v [value 2 1 "M"] ->
     In v (AttributeValues (db world)) /\
     key_eq (JStr "1") (AttributeValue.attribute_id v) = true) /\
  (fst (getAttributeValues (values_for "5") world) =
     Sent 404 (ErrorEnvelope {|
       status := 404;
       code := "ATR_01";
       message := "Don't exist attribute with this ID 5";
       field := "attribute_id" |}) /\
   forall v, In v [] ->
     In v (AttributeValues (db world)) /\
     key_eq (JStr "5") (AttributeValue.attribute_id v) = true).
Proof.
  split.
  - exact (getAttributeValues_of_attribute (values_for "1") world
             (Some 1%nat) (Some 1%nat) eq_refl eq_refl eq_refl).
  - exact (getAttributeValues_of_attribute (values_for "5") world
             (Some 1%nat) (Some 1%nat) eq_refl eq_refl eq_refl).
Defined.

Lemma getProductReviews_by_review_key_witness :
  fst (getProductReviews (by_product "2") world) = Sent 200 (Data praise).
Proof.
  refine (getProductReviews_by_review_key (by_product "2") world "2"
            eq_refl _ eq_refl).
  discriminate.
Defined.

End Runs.

(** * Further properties of the handlers *)

(** ** What the handlers do to the world *)

Section Discipline.
Context {ext : Collaborators}.
Import Orm ProductController AttributeController.

Lemma findAll_reads {R : Type} (m : Model) (table : Db -> list R)
    (w : World) :
  snd (findAll m table w) = logged (FindAll m) w.
Proof.
  unfold findAll, send, read_db, bind. destruct (connected w); reflexivity.
Qed.

(** After [try { x = await m; k(x) }] with a continuation that does not
    touch the world, the world is the one [m] left. *)
Lemma snd_try_next_bind {A B : Type} (m : M A) (k : A -> M (outcome B))
    (w : World) :
  (forall a w1, snd (k a w1) = w1) ->
  snd (try_next (bind m k) w) = snd (m w).
Proof.
  intros Hk. unfold try_next, bind.
  destruct (m w) as [[e|a] w1]; cbn; [reflexivity|].
  specialize (Hk a w1). destruct (k a w1) as [[e|o] w2]; exact Hk.
Qed.

Lemma Quiet_findAndCountAll {R : Type} (m : Model) (source : Db -> list R)
    (limit offset : jsval) (w : World) :
  Quiet w (snd (findAndCountAll m source limit offset w)).
Proof. rewrite findAndCountAll_reads. right. eexists. reflexivity. Qed.

Lemma Quiet_findAll {R : Type} (m : Model) (table : Db -> list R)
    (w : World) :
  Quiet w (snd (findAll m table w)).
Proof. rewrite findAll_reads. right. eexists. reflexivity. Qed.

Lemma Quiet_findByPk {R : Type} (m : Model) (table : Db -> list R)
    (pk : R -> Z) (key : jsval) (w : World) :
  Quiet w (snd (findByPk m table pk key w)).
Proof.
  destruct (findByPk_reads m table pk key w) as [H|H]; rewrite H;
    [now left | right; eexists; reflexivity].
Qed.

(** Continuations that only choose an answer. *)
Ltac only_answers :=
  intros; unfold bind, lift, ret, throw;
  repeat (cbn [fst snd];
          match goal with
          | |- context [call_toLowerCase ?v] => destruct (call_toLowerCase v)
          | |- context [filter_throwing ?f ?l] =>
              destruct (filter_throwing f l)
          | |- context [if ?c then _ else _] => destruct c
          | |- context [match ?x with _ => _ end] => is_var x; destruct x
          end);
  reflexivity.

Ltac quiet :=
  rewrite snd_try_next_bind;
  [ first [ apply Quiet_findAndCountAll
          | apply Quiet_findAll
          | apply Quiet_findByPk ]
  | only_answers ].

(** X1.  Every handler but [postProductReviews] is quiet: it leaves the
    tables, the connection and the clock as they were and sends at most
    one statement to the store, whatever the request. *)
Theorem readers_are_quiet (req : Request) (w : World) :
  Quiet w (snd (getAllAttributes req w)) /\
  Quiet w (snd (getSingleAttribute req w)) /\
  Quiet w (snd (getAttributeValues req w)) /\
  Quiet w (snd (getProductAttributes req w)) /\
  Quiet w (snd (getAllProducts req w)) /\
  Quiet w (snd (searchProduct req w)) /\
  Quiet w (snd (getProductsByCategory req w)) /\
  Quiet w (snd (getProductsByDepartment req w)) /\
  Quiet w (snd (getProduct req w)) /\
  Quiet w (snd (getProductReviews req w)) /\
  Quiet w (snd (getAllDepartments req w)) /\
  Quiet w (snd (getDepartment req w)) /\
  Quiet w (snd (getAllCategories req w)) /\
  Quiet w (snd (getSingleCategory req w)) /\
  Quiet w (snd (getDepartmentCategories req w)) /\
  Quiet w (snd (getCategoryOfProduct req w)).
Proof.
  repeat split.
  all: unfold getAllAttributes, getSingleAttribute, getAttributeValues,
         getProductAttributes, getAllProducts, searchProduct,
         getProductsByCategory, getProductsByDepartment, getProduct,
         getProductReviews, getAllDepartments, getDepartment,
         getAllCategories, getSingleCategory, getDepartmentCategories,
         getCategoryOfProduct.
  all: try quiet.
  - destruct (eq_undefined (get (query req) "all_words")); [now left|].
    destruct (eq_undefined (get (query req) "query_string")); [now left|].
    quiet.
  - destruct (truthy (get (params req) "product_id")); [quiet | now left].
Qed.

End Discipline.

Section Writes.
Context {ext : Collaborators}.
Import Orm ProductController AttributeController.

(** X2.  [postProductReviews] touches nothing but the reviews, sends at
    most two statements, and writes exactly when it answers with data:
    the answer then has status 201 and one row was appended whose
    creation time, review and rating are those of the receipt and whose
    customer is 0.  With any other outcome the reviews are as before. *)
Theorem postProductReviews_writes_with_receipt (req : Request) (w : World) :
  connected (snd (postProductReviews req w)) = connected w /\
  now (snd (postProductReviews req w)) = now w /\
  Products (db (snd (postProductReviews req w))) = Products (db w) /\
  Departments (db (snd (postProductReviews req w))) = Departments (db w) /\
  Categories (db (snd (postProductReviews req w))) = Categories (db w) /\
  Attributes (db (snd (postProductReviews req w))) = Attributes (db w) /\
  AttributeValues (db (snd (postProductReviews req w)))
    = AttributeValues (db w) /\
  ProductAttributes (db (snd (postProductReviews req w)))
    = ProductAttributes (db w) /\
  ProductCategories (db (snd (postProductReviews req w)))
    = ProductCategories (db w) /\
  (length (issued (snd (postProductReviews req w)))
   <= length (issued w) + 2)%nat /\
  match fst (postProductReviews req w) with
  | Sent http (Data receipt) =>
      http = 201 /\
      exists r : Review.row,
        Reviews (db (snd (postProductReviews req w)))
          = (Reviews (db w) ++ [r])%list /\
        Review.created_on r = Receipt.created_on receipt /\
        Review.review r = Receipt.review receipt /\
        Review.rating r = Receipt.rating receipt /\
        Review.customer_id r = 0
  | _ => Reviews (db (snd (postProductReviews req w))) = Reviews (db w)
  end.
Proof.
  unfold postProductReviews, try_next, bind.
  cbn [Review.m_product_id Review.m_review Review.m_rating].
  pose proof (findByPk_reads MProduct Products Product.product_id
                (get (req_body req) "product_id") w) as Hw.
  destruct (findByPk MProduct Products Product.product_id
              (get (req_body req) "product_id") w) as [[e|[p|]] w1];
    cbn [fst snd] in Hw |- *.
  1, 3: destruct Hw as [->| ->]; cbn; repeat split; lia.
  unfold create_review, send, read_db, read_clock, write_reviews, bind.
  destruct Hw as [->| ->]; cbn [connected logged];
    destruct (connected w) eqn:Hc; cbn;
    try (repeat split; first [exact Hc | lia]);
    match goal with |- context [accepts ?md] => destruct (accepts md) end;
    cbn; repeat split; try exact Hc; try lia;
    eexists; repeat split.
Qed.

Ltac answer_cases :=
  unfold try_next, bind;
  match goal with
  | |- context [findAndCountAll ?m ?s ?l ?o ?w0] =>
      destruct (findAndCountAll m s l o w0) as [[?e|?c] ?w1]
  | |- context [findAll ?m ?t ?w0] =>
      destruct (findAll m t w0) as [[?e|?c] ?w1]
  | |- context [findByPk ?m ?t ?k ?v ?w0] =>
      destruct (findByPk m t k v w0) as [[?e|[?r|]] ?w1]
  end; cbn [fst snd].

(** X3.  Whatever the request and the state of the store, an answer of
    any handler is well formed: an error body goes out with status 404 and
    repeats 404 inside, a data body goes out with 200 or 201. *)
Theorem answers_are_well_formed (req : Request) (w : World) :
  WellFormed (fst (getAllAttributes req w)) /\
  WellFormed (fst (getSingleAttribute req w)) /\
  WellFormed (fst (getAttributeValues req w)) /\
  WellFormed (fst (getProductAttributes req w)) /\
  WellFormed (fst (getAllProducts req w)) /\
  WellFormed (fst (searchProduct req w)) /\
  WellFormed (fst (getProductsByCategory req w)) /\
  WellFormed (fst (getProductsByDepartment req w)) /\
  WellFormed (fst (getProduct req w)) /\
  WellFormed (fst (getProductReviews req w)) /\
  WellFormed (fst (postProductReviews req w)) /\
  WellFormed (fst (getAllDepartments req w)) /\
  WellFormed (fst (getDepartment req w)) /\
  WellFormed (fst (getAllCategories req w)) /\
  WellFormed (fst (getSingleCategory req w)) /\
  WellFormed (fst (getDepartmentCategories req w)) /\
  WellFormed (fst (getCategoryOfProduct req w)).
Proof.
  repeat split.
  all: unfold getAllAttributes, getSingleAttribute, getAttributeValues,
         getProductAttributes, getAllProducts, searchProduct,
         getProductsByCategory, getProductsByDepartment, getProduct,
         getProductReviews, postProductReviews, getAllDepartments,
         getDepartment, getAllCategories, getSingleCategory,
         getDepartmentCategories, getCategoryOfProduct.
  all: try match goal with
           | |- context [eq_undefined _] =>
               destruct (eq_undefined (get (query req) "all_words"));
               [cbn; auto|];
               destruct (eq_undefined (get (query req) "query_string"));
               [cbn; auto|]
           | |- context [truthy ?v] => destruct (truthy v); [|exact I]
           end.
  all: answer_cases; cbn; auto.
  all: try match goal with
           | |- context [count ?x =? 0] => destruct (count x =? 0); cbn; auto
           | |- context [create_review ?md ?w0] =>
               destruct (create_review md w0) as [[?e|?r] ?w2]; cbn; auto
           end.
  unfold lift.
  destruct (call_toLowerCase (get (query req) "all_words")); cbn; auto.
  destruct (String.eqb s "on"); cbn.
  - destruct (filter_throwing _ _); cbn; auto.
  - destruct (String.eqb s "off"); cbn; auto.
Qed.

End Writes.

(** ** The store out of reach, and the plain listings *)

Section Failures.
Context {ext : Collaborators}.
Import Orm ProductController AttributeController.

Lemma findAndCountAll_offline {R : Type} (m : Model) (source : Db -> list R)
    (limit offset : jsval) (w : World) :
  connected w = false ->
  fst (findAndCountAll m source limit offset w) =
    inl (StoreError "connection refused").
Proof.
  intros Hc. unfold findAndCountAll, send, read_db, bind.
  now rewrite Hc.
Qed.

Lemma findAll_offline {R : Type} (m : Model) (table : Db -> list R)
    (w : World) :
  connected w = false ->
  fst (findAll m table w) = inl (StoreError "connection refused").
Proof. intros Hc. unfold findAll, send, read_db, bind. now rewrite Hc. Qed.

Lemma fst_try_next_bind_fails {A B : Type} (m : M A)
    (k : A -> M (outcome B)) (w : World) (e : exn) :
  fst (m w) = inl e -> fst (try_next (bind m k) w) = Next e.
Proof.
  unfold try_next, bind. destruct (m w) as [[e'|a] w1]; cbn;
    [intros H; now injection H as -> | discriminate].
Qed.

(** X4.  When the store cannot be reached, each handler that starts with a
    query over a table hands the store's error to [next]: it sends no
    answer of its own, neither data nor a not-found body. *)
Theorem unreachable_store_goes_to_next (req : Request) (w : World) :
  connected w = false ->
  fst (getAllAttributes req w) = Next (StoreError "connection refused") /\
  fst (getSingleAttribute req w) = Next (StoreError "connection refused") /\
  fst (getAttributeValues req w) = Next (StoreError "connection refused") /\
  fst (getProductAttributes req w) = Next (StoreError "connection refused") /\
  fst (getAllProducts req w) = Next (StoreError "connection refused") /\
  fst (getProductsByCategory req w)
    = Next (StoreError "connection refused") /\
  fst (getProductsByDepartment req w)
    = Next (StoreError "connection refused") /\
  fst (getAllDepartments req w) = Next (StoreError "connection refused") /\
  fst (getAllCategories req w) = Next (StoreError "connection refused") /\
  fst (getDepartmentCategories req w)
    = Next (StoreError "connection refused") /\
  fst (getCategoryOfProduct req w) = Next (StoreError "connection refused").
Proof.
  intros Hc. repeat split.
  all: unfold getAllAttributes, getSingleAttribute, getAttributeValues,
         getProductAttributes, getAllProducts, getProductsByCategory,
         getProductsByDepartment, getAllDepartments, getAllCategories,
         getDepartmentCategories, getCategoryOfProduct.
  all: apply fst_try_next_bind_fails.
  all: first [ now apply findAndCountAll_offline
             | now apply findAll_offline ].
Qed.

(** X5.  The four plain listings have no not-found path: whatever the
    request and the tables, even empty ones, the outcome is data with
    status 200 or an exception handed to [next]. *)
Theorem listings_never_answer_not_found (req : Request) (w : World) :
  DataOrNext (fst (getAllAttributes req w)) /\
  DataOrNext (fst (getAllProducts req w)) /\
  DataOrNext (fst (getAllDepartments req w)) /\
  DataOrNext (fst (getAllCategories req w)).
Proof.
  repeat split.
  all: unfold getAllAttributes, getAllProducts, getAllDepartments,
         getAllCategories, try_next, bind.
  all: match goal with
       | |- context [findAndCountAll ?m ?s ?l ?o ?w0] =>
           destruct (findAndCountAll m s l o w0) as [[e|c] w1]
       | |- context [findAll ?m ?t ?w0] =>
           destruct (findAll m t w0) as [[e|c] w1]
       end; cbn; auto.
Qed.

End Failures.

(** ** The handlers that list the rows of a parent *)

Section Joins.
Context {ext : Collaborators}.
Import Orm ProductController AttributeController.

Lemma In_join_through {A B : Type} (pka : A -> Z) (pkb : B -> Z)
    (links : list (Z * Z)) (cond : B -> bool)
    (ta : list A) (tb : list B) (a : A) (b : B) :
  In (a, b) (join_through pka pkb links cond ta tb) <->
  In a ta /\ In b tb /\ In (pka a, pkb b) links /\ cond b = true.
Proof.
  unfold join_through. rewrite in_flat_map. split.
  - intros [a' [Ha H]]. apply in_flat_map in H.
    destruct H as [[ka kb] [Hl H]]. cbn [fst snd] in H.
    destruct (pka a' =? ka) eqn:E; [|destruct H].
    apply in_map_iff in H. destruct H as [b' [Eb H]].
    injection Eb as -> ->. apply filter_In in H. destruct H as [Hb H].
    apply andb_true_iff in H. destruct H as [H1 H2].
    apply Z.eqb_eq in E, H1. subst ka kb. auto.
  - intros [Ha [Hb [Hl Hc]]]. exists a. split; [exact Ha|].
    apply in_flat_map. exists (pka a, pkb b). split; [exact Hl|].
    cbn [fst snd]. rewrite Z.eqb_refl. apply in_map_iff.
    exists b. split; [reflexivity|]. apply filter_In. split; [exact Hb|].
    now rewrite Z.eqb_refl.
Qed.

Lemma In_swapped (links : list (Z * Z)) (a b : Z) :
  In (a, b) (map swap links) <-> In (b, a) links.
Proof.
  rewrite in_map_iff. split.
  - intros [[x y] [E H]]. cbn in E. injection E as -> ->. exact H.
  - intros H. now exists (b, a).
Qed.

Lemma page_map {R S : Type} (f : R -> S) (lim off : option nat)
    (l : list R) :
  page lim off (map f l) = map f (page lim off l).
Proof.
  unfold page. destruct off as [o|], lim as [n|];
    now rewrite ?skipn_map, ?firstn_map.
Qed.

(** X6.  [getProductsByCategory] on a reachable store: 404 with code
    [PRD_02] when no product is linked to the category, otherwise 200 with
    the first twenty of the linked products.  The window is fixed: the
    request's [limit] and [offset] play no part.  The linked products are
    those tied by the association table to a category whose key the
    parameter denotes. *)
Theorem getProductsByCategory_first_twenty (req : Request) (w : World) :
  connected w = true ->
  fst (getProductsByCategory req w) =
    match products_of_category (get (params req) "category_id") (db w) with
    | [] =>
        Sent 404 (ErrorEnvelope {|
          status := 404;
          code := "PRD_02";
          message := error "ProductError" "PRD_02" ++ " "
                     ++ to_string (get (params req) "category_id");
          field := "category_id" |})
    | _ :: _ =>
        Sent 200 (Data (firstn 20
          (products_of_category (get (params req) "category_id") (db w))))
    end /\
  forall p,
    In p (products_of_category (get (params req) "category_id") (db w)) <->
    In p (Products (db w)) /\
    exists c, In c (Categories (db w)) /\
      In (Product.product_id p, Category.category_id c)
         (ProductCategories (db w)) /\
      key_eq (get (params req) "category_id") (Category.category_id c)
        = true.
Proof.
  intros Hc. split.
  - unfold getProductsByCategory, try_next, bind.
    rewrite (findAndCountAll_run MProduct _ (JNum 20) (JNum 0)
               (Some 20%nat) (Some 0%nat) w Hc eq_refl eq_refl).
    cbn [count rows page skipn].
    destruct (products_of_category _ _); reflexivity.
  - intros p. unfold products_of_category. rewrite in_map_iff. split.
    + intros [[p' c] [E H]]. cbn in E. subst p'.
      apply In_join_through in H. destruct H as [Hp [Hcat [Hl Hk]]].
      split; [exact Hp|]. now exists c.
    + intros [Hp [c [Hcat [Hl Hk]]]]. exists (p, c).
      split; [reflexivity|]. apply In_join_through. auto.
Qed.

(** X7.  [getProductsByDepartment] on a reachable store: 404 with code
    [PRD_03] when no product is linked to a category of the department,
    otherwise 200 with the first twenty such products; the request's
    [limit] and [offset] play no part.  A product is listed as often as
    it is in the table of products, however many of its categories are in
    the department.  The department is matched against the
    [department_id] column of the categories; the table of departments is
    not consulted. *)
Theorem getProductsByDepartment_first_twenty (req : Request) (w : World) :
  connected w = true ->
  fst (getProductsByDepartment req w) =
    match products_of_department (get (params req) "department_id")
            (db w) with
    | [] =>
        Sent 404 (ErrorEnvelope {|
          status := 404;
          code := "PRD_03";
          message := error "ProductError" "PRD_03" ++ " "
                     ++ to_string (get (params req) "department_id");
          field := "department_id" |})
    | _ :: _ =>
        Sent 200 (Data (firstn 20
          (products_of_department (get (params req) "department_id")
             (db w))))
    end /\
  (forall p,
     In p (products_of_department (get (params req) "department_id")
             (db w)) <->
     In p (Products (db w)) /\
     exists c, In c (Categories (db w)) /\
       In (Product.product_id p, Category.category_id c)
          (ProductCategories (db w)) /\
       key_eq (get (params req) "department_id") (Category.department_id c)
         = true) /\
  exists keep : Product.row -> bool,
    products_of_department (get (params req) "department_id") (db w)
      = filter keep (Products (db w)).
Proof.
  intros Hc. split; [|split].
  - unfold getProductsByDepartment, try_next, bind.
    rewrite (findAndCountAll_run MProduct _ (JNum 20) (JNum 0)
               (Some 20%nat) (Some 0%nat) w Hc eq_refl eq_refl).
    cbn [count rows page skipn].
    destruct (products_of_department _ _); reflexivity.
  - intros p. unfold products_of_department, in_category.
    rewrite filter_In, existsb_exists. split.
    + intros [Hp [c [Hcat H]]]. apply andb_true_iff in H.
      destruct H as [H Hk]. apply existsb_exists in H.
      destruct H as [[a b] [Hl H]]. cbn [fst snd] in H.
      apply andb_true_iff in H. destruct H as [Ha Hb].
      apply Z.eqb_eq in Ha, Hb. subst a b.
      split; [exact Hp|]. now exists c.
    + intros [Hp [c [Hcat [Hl Hk]]]]. split; [exact Hp|].
      exists c. split; [exact Hcat|]. apply andb_true_iff.
      split; [|exact Hk]. apply existsb_exists.
      exists (Product.product_id p, Category.category_id c).
      split; [exact Hl|]. cbn [fst snd]. now rewrite !Z.eqb_refl.
  - eexists. reflexivity.
Qed.

End Joins.

Section Windows.
Context {ext : Collaborators}.
Import Orm ProductController AttributeController.

(** X8.  [getDepartmentCategories] on a reachable store that can read the
    window: 404 with code [DEP_02] when the department has no category,
    otherwise 200 with the requested window of its categories.  A
    category belongs to the department when its [department_id] is the
    key of a department in the table that the parameter denotes. *)
Theorem getDepartmentCategories_window (req : Request) (w : World)
    (lim off : option nat) :
  connected w = true ->
  bound (get (query req) "limit") = Some lim ->
  bound (get (query req) "offset") = Some off ->
  fst (getDepartmentCategories req w) =
    match categories_of_department (get (params req) "department_id")
            (db w) with
    | [] =>
        Sent 404 (ErrorEnvelope {|
          status := 404;
          code := "DEP_02";
          message := error "DepartmentError" "DEP_02" ++ " "
                     ++ to_string (get (params req) "department_id");
          field := "department_id" |})
    | _ :: _ =>
        Sent 200 (Data (page lim off
          (categories_of_department (get (params req) "department_id")
             (db w))))
    end /\
  forall c,
    In c (categories_of_department (get (params req) "department_id")
            (db w)) <->
    In c (Categories (db w)) /\
    key_eq (get (params req) "department_id") (Category.department_id c)
      = true /\
    exists d, In d (Departments (db w)) /\
              Department.department_id d = Category.department_id c.
Proof.
  intros Hc Hl Ho. split.
  - unfold getDepartmentCategories, try_next, bind.
    rewrite (findAndCountAll_run MCategory _ _ _ lim off w Hc Hl Ho).
    cbn [count rows].
    destruct (categories_of_department _ _); reflexivity.
  - intros c. unfold categories_of_department. rewrite in_map_iff. split.
    + intros [[c' d] [E H]]. cbn in E. subst c'.
      apply In_join_parent in H. destruct H as [H1 [H2 [E H]]].
      rewrite E. split; [exact H1|]. split; [exact H|]. now exists d.
    + intros [H1 [H [d [H2 E]]]]. exists (c, d). split; [reflexivity|].
      apply In_join_parent. rewrite E. auto.
Qed.

(** X9.  [getCategoryOfProduct] on a reachable store answers 200 with all
    the categories of the product, without a window, exactly when there is
    one; the categories of a product are those tied by the association
    table to a product whose key the parameter denotes. *)
Theorem getCategoryOfProduct_all_categories (req : Request) (w : World)
    (c : Category.row) (rest : list Category.row) :
  connected w = true ->
  categories_of_product (get (params req) "product_id") (db w) = c :: rest ->
  fst (getCategoryOfProduct req w) = Sent 200 (Data (c :: rest)) /\
  forall x,
    In x (c :: rest) <->
    In x (Categories (db w)) /\
    exists p, In p (Products (db w)) /\
      In (Product.product_id p, Category.category_id x)
         (ProductCategories (db w)) /\
      key_eq (get (params req) "product_id") (Product.product_id p) = true.
Proof.
  intros Hc He. split.
  - unfold getCategoryOfProduct, try_next, bind.
    rewrite (findAndCountAll_run MCategory _ JUndefined JUndefined
               None None w Hc eq_refl eq_refl).
    rewrite He. reflexivity.
  - intros x. rewrite <- He. unfold categories_of_product.
    rewrite in_map_iff. split.
    + intros [[x' p] [E H]]. cbn in E. subst x'.
      apply In_join_through in H. destruct H as [H1 [H2 [Hl Hk]]].
      apply (proj1 (In_swapped _ _ _)) in Hl. split; [exact H1|]. now exists p.
    + intros [H1 [p [H2 [Hl Hk]]]]. exists (x, p). split; [reflexivity|].
      apply In_join_through. rewrite In_swapped. auto.
Qed.

(** X10.  [getProductAttributes] on a reachable store that can read the
    window: 404 with code [ATR_02] when the product has no attribute
    value, otherwise 200 with the requested window of its values.  The
    values of a product are those tied by the association table to a
    product whose key the parameter denotes. *)
Theorem getProductAttributes_window (req : Request) (w : World)
    (lim off : option nat) :
  connected w = true ->
  bound (get (query req) "limit") = Some lim ->
  bound (get (query req) "offset") = Some off ->
  fst (getProductAttributes req w) =
    match values_of_product (get (params req) "product_id") (db w) with
    | [] =>
        Sent 404 (ErrorEnvelope {|
          status := 404;
          code := "ATR_02";
          message := error "AttributeError" "ATR_02" ++ " "
                     ++ to_string (get (params req) "product_id");
          field := "product_id" |})
    | _ :: _ =>
        Sent 200 (Data (page lim off
          (values_of_product (get (params req) "product_id") (db w))))
    end /\
  forall v,
    In v (values_of_product (get (params req) "product_id") (db w)) <->
    In v (AttributeValues (db w)) /\
    exists p, In p (Products (db w)) /\
      In (Product.product_id p, AttributeValue.attribute_value_id v)
         (ProductAttributes (db w)) /\
      key_eq (get (params req) "product_id") (Product.product_id p) = true.
Proof.
  intros Hc Hl Ho. split.
  - unfold getProductAttributes, try_next, bind.
    rewrite (findAndCountAll_run MAttributeValue _ _ _ lim off w Hc Hl Ho).
    cbn [count rows].
    destruct (values_of_product _ _); reflexivity.
  - intros v. unfold values_of_product. rewrite in_map_iff. split.
    + intros [[v' p] [E H]]. cbn in E. subst v'.
      apply In_join_through in H. destruct H as [H1 [H2 [Hk Hq]]].
      apply (proj1 (In_swapped _ _ _)) in Hk. split; [exact H1|]. now exists p.
    + intros [H1 [p [H2 [Hk Hq]]]]. exists (v, p). split; [reflexivity|].
      apply In_join_through. rewrite In_swapped. auto.
Qed.

(** X11.  [getSingleAttribute] and [getAttributeValues] run the same
    query: for the same request and world they settle alike, with the same
    status and the same error body; when they answer with data, the rows
    of the second are the rows of the first without the nested attribute,
    and each nested attribute is the parent of its value and the one
    asked for. *)
Theorem getSingleAttribute_agrees_with_values (req : Request) (w : World) :
  match fst (getSingleAttribute req w), fst (getAttributeValues req w) with
  | Sent h1 (Data nested), Sent h2 (Data plain) =>
      h1 = h2 /\ plain = map fst nested /\
      forall v a, In (v, a) nested ->
        AttributeValue.attribute_id v = Attribute.attribute_id a /\
        key_eq (get (params req) "attribute_id") (Attribute.attribute_id a)
          = true
  | Sent h1 (ErrorEnvelope e1), Sent h2 (ErrorEnvelope e2) =>
      h1 = h2 /\ e1 = e2
  | Next e1, Next e2 => e1 = e2
  | NoResponse, NoResponse => True
  | _, _ => False
  end.
Proof.
  unfold getSingleAttribute, getAttributeValues, try_next, bind,
    findAndCountAll, send, read_db, bind.
  destruct (connected w); cbn; [|reflexivity].
  destruct (bound (get (query req) "limit")) as [lim|]; cbn;
    [|reflexivity].
  destruct (bound (get (query req) "offset")) as [off|]; cbn;
    [|reflexivity].
  rewrite length_map.
  destruct (Z.of_nat (length (values_of_attribute _ _)) =? 0); cbn.
  - auto.
  - split; [reflexivity|]. split; [apply page_map|].
    intros v a H. apply In_page, In_join_parent in H.
    destruct H as [_ [_ [E H]]]. auto.
Qed.

(** X12.  The not-found answer of [getAttributeValues] depends on the
    count of all associated values, not on the window: with an offset at
    or past their number the answer is 200 with no rows. *)
Theorem getAttributeValues_offset_past_the_end (req : Request) (w : World)
    (lim : option nat) (o : nat) :
  connected w = true ->
  bound (get (query req) "limit") = Some lim ->
  bound (get (query req) "offset") = Some (Some o) ->
  values_of_attribute (get (params req) "attribute_id") (db w) <> [] ->
  (length (values_of_attribute (get (params req) "attribute_id") (db w))
   <= o)%nat ->
  fst (getAttributeValues req w) = Sent 200 (Data []).
Proof.
  intros Hc Hl Ho Hne Hlen. unfold getAttributeValues, try_next, bind.
  rewrite (findAndCountAll_run MAttributeValue _ _ _ lim (Some o) w
             Hc Hl Ho).
  cbn [count rows fst]. rewrite length_map.
  destruct (values_of_attribute _ _) as [|x l] eqn:E; [congruence|].
  cbn [length]. replace (Z.of_nat (S (length l)) =? 0) with false
    by (symmetry; apply Z.eqb_neq; lia).
  unfold page. rewrite skipn_all2 by (rewrite length_map; exact Hlen).
  destruct lim as [n|]; [now rewrite firstn_nil | reflexivity].
Qed.

End Windows.

(** ** More on the search *)

Section SearchEdges.
Context {ext : Collaborators}.
Import Orm ProductController.

Lemma filter_all {R : Type} (f : R -> bool) (l : list R) :
  (forall x, f x = true) -> filter f l = l.
Proof.
  intros H. induction l as [|x l IH]; cbn; [reflexivity|].
  now rewrite H, IH.
Qed.

Lemma filter_throwing_In {R : Type} (f : R -> exn + bool) (l r : list R)
    (x : R) :
  filter_throwing f l = inr r -> In x r -> In x l.
Proof.
  revert r. induction l as [|y l IH]; cbn; intros r H Hx.
  - injection H as <-. exact Hx.
  - destruct (f y) as [e|b]; [discriminate|].
    destruct (filter_throwing f l) as [e|r']; [discriminate|].
    injection H as <-. destruct b.
    + destruct Hx as [->|Hx]; [now left | right; now apply (IH r')].
    + right. now apply (IH r').
Qed.

Lemma indexOf_empty (s : string) : indexOf s "" = 0.
Proof. unfold indexOf. destruct s; reflexivity. Qed.

Lemma append_assoc (a b c : string) : (a ++ b) ++ c = a ++ (b ++ c).
Proof. induction a as [|x a IH]; cbn; [reflexivity | now rewrite IH]. Qed.

Lemma Substring_trans (a b c : string) :
  Substring a b -> Substring b c -> Substring a c.
Proof.
  intros [p1 [q1 ->]] [p2 [q2 ->]]. exists (p2 ++ p1), (q1 ++ q2).
  now rewrite !append_assoc.
Qed.

Lemma Substring_up_to_case (q s : string) :
  Substring q s -> CaseInsensitiveSubstring q s.
Proof.
  intros [pre [post ->]]. exists pre, q, post. split; [reflexivity|].
  now apply ascii_lower_same.
Qed.

(** X13.  An empty [query_string] matches everything: in either mode the
    search answers 200 with all the products, in the order of the
    table. *)
Theorem searchProduct_empty_query (mode : matchMode) (req : Request)
    (w : World) (aw : string) :
  get (query req) "query_string" = JStr "" ->
  get (query req) "all_words" = JStr aw ->
  toLowerCase aw = all_words_of mode ->
  connected w = true ->
  fst (searchProduct req w) = Sent 200 (Data (Products (db w))).
Proof.
  intros Hq Ha Hm Hc.
  assert (Hd : eq_undefined (get (query req) "query_string") = false)
    by now rewrite Hq.
  rewrite (searchProduct_run req w aw Ha Hd Hc), Hq, Hm.
  destruct mode; cbn [all_words_of fst String.eqb Ascii.eqb Bool.eqb andb].
  - unfold matches_any_field. cbn [call_toLowerCase].
    change (toLowerCase "") with "".
    rewrite (filter_throwing_total
               (fun data => negb (indexOf (toLowerCase (stringify data)) ""
                                  =? -1))).
    rewrite filter_all; [reflexivity|].
    intros p. now rewrite indexOf_empty.
  - rewrite filter_all; [reflexivity|].
    intros p. unfold matches_name. cbn [to_string].
    now rewrite indexOf_empty.
Qed.

(** X14.  The mode is read without regard to case: two requests with the
    same [query_string] whose [all_words] are strings that agree once
    lowered are treated alike. *)
Theorem searchProduct_mode_ignores_case (req req' : Request) (w : World)
    (aw aw' : string) :
  get (query req) "query_string" = get (query req') "query_string" ->
  get (query req) "all_words" = JStr aw ->
  get (query req') "all_words" = JStr aw' ->
  toLowerCase aw = toLowerCase aw' ->
  searchProduct req w = searchProduct req' w.
Proof.
  intros Hq Ha Ha' Hl. unfold searchProduct.
  rewrite Hq, Ha, Ha'. cbn [eq_undefined call_toLowerCase].
  now rewrite Hl.
Qed.

(** X15.  With [all_words] on, the case of the query does not matter: two
    requests whose query strings agree once lowered get the same
    outcome. *)
Theorem searchProduct_on_ignores_query_case (req req' : Request) (w : World)
    (q q' aw : string) :
  get (query req) "query_string" = JStr q ->
  get (query req') "query_string" = JStr q' ->
  get (query req) "all_words" = JStr aw ->
  get (query req') "all_words" = JStr aw ->
  toLowerCase aw = "on" ->
  toLowerCase q = toLowerCase q' ->
  searchProduct req w = searchProduct req' w.
Proof.
  intros Hq Hq' Ha Ha' Hon Hl. unfold searchProduct.
  rewrite Hq, Hq', Ha, Ha'. cbn [eq_undefined call_toLowerCase].
  unfold matches_any_field. cbn [call_toLowerCase lift].
  rewrite Hon, Hl. reflexivity.
Qed.

(** X16.  The search never shows a product that is not in the table: any
    data it answers with is drawn from the products of the store. *)
Theorem searchProduct_shows_stored_products (req : Request) (w : World)
    (http : Z) (found : list Product.row) (p : Product.row) :
  fst (searchProduct req w) = Sent http (Data found) ->
  In p found ->
  In p (Products (db w)).
Proof.
  unfold searchProduct.
  destruct (eq_undefined (get (query req) "all_words")); [discriminate|].
  destruct (eq_undefined (get (query req) "query_string")); [discriminate|].
  unfold try_next, findAndCountAll, send, read_db, bind.
  destruct (connected w); cbn; [|discriminate].
  unfold lift.
  destruct (call_toLowerCase (get (query req) "all_words")) as [e|mode];
    cbn; [discriminate|].
  destruct (String.eqb mode "on"); cbn.
  - destruct (filter_throwing _ _) as [e|r] eqn:E; cbn; [discriminate|].
    intros H Hp. injection H as _ <-.
    exact (filter_throwing_In _ _ _ _ E Hp).
  - destruct (String.eqb mode "off"); cbn; [|discriminate].
    intros H Hp. injection H as _ <-. apply filter_In in Hp. tauto.
Qed.

(** X17.  On texts of ASCII a product found by name is found in all fields
    as well, as long as its serialisation shows the name as it stands:
    for the same query, what the search answers with [all_words] off and
    is so serialised is among what it answers with [all_words] on.  (The
    lowering of other texts depends on the context of a letter, and a
    capital sigma at the end of a name is a literal match that the
    lowered search misses.) *)
Theorem searchProduct_name_match_is_field_match (req_off req_on : Request)
    (w : World) (q off on : string) (found : list Product.row)
    (p : Product.row) :
  get (query req_off) "query_string" = JStr q ->
  get (query req_on) "query_string" = JStr q ->
  get (query req_off) "all_words" = JStr off ->
  get (query req_on) "all_words" = JStr on ->
  toLowerCase off = "off" ->
  toLowerCase on = "on" ->
  connected w = true ->
  fst (searchProduct req_off w) = Sent 200 (Data found) ->
  In p found ->
  Substring (Product.name p) (stringify p) ->
  is_ascii q = true ->
  is_ascii (stringify p) = true ->
  exists found_on,
    fst (searchProduct req_on w) = Sent 200 (Data found_on) /\
    In p found_on.
Proof.
  intros Hq Hq' Ha Ha' Hoff Hon Hc Hf Hp Hs Hqa Hsa.
  assert (Hd : eq_undefined (get (query req_off) "query_string") = false)
    by now rewrite Hq.
  assert (Hd' : eq_undefined (get (query req_on) "query_string") = false)
    by now rewrite Hq'.
  rewrite (searchProduct_run req_off w off Ha Hd Hc), Hq, Hoff in Hf.
  cbn in Hf. injection Hf as <-.
  apply filter_In in Hp. destruct Hp as [Hin Hm].
  apply matches_name_spec in Hm.
  rewrite (searchProduct_run req_on w on Ha' Hd' Hc), Hq', Hon.
  cbn [String.eqb Ascii.eqb Bool.eqb andb fst].
  unfold matches_any_field. cbn [call_toLowerCase].
  rewrite (filter_throwing_total
             (fun data => negb (indexOf (toLowerCase (stringify data))
                                  (toLowerCase q) =? -1))).
  eexists. split; [reflexivity|].
  apply filter_In. split; [exact Hin|].
  apply matches_any_field_spec, (lowered_match_up_to_case q _ Hqa Hsa).
  apply Substring_up_to_case.
  exact (Substring_trans _ _ _ Hm Hs).
Qed.

End SearchEdges.

(** ** Lookups by key *)

Section Lookups.
Context {ext : Collaborators}.
Import Orm ProductController.

(** What a lookup with a string for key does on a reachable store. *)
Lemma findByPk_string {R : Type} (m : Model) (table : Db -> list R)
    (pk : R -> Z) (s : string) (w : World) :
  connected w = true ->
  findByPk m table pk (JStr s) w =
    (inr (find (fun r => key_eq (JStr s) (pk r)) (table (db w))),
     logged (FindByPk m (JStr s)) w).
Proof.
  intros Hc. cbn [findByPk]. unfold send, read_db, bind. now rewrite Hc.
Qed.

(** X19.  [getProduct] with a string parameter on a reachable store
    answers 200 with the columns of the first product whose key the
    parameter denotes, a row of the table, unchanged; when there is none
    it answers 404 with code [PRD_01] and the parameter in the message. *)
Theorem getProduct_by_key (req : Request) (w : World) (s : string) :
  get (params req) "product_id" = JStr s ->
  connected w = true ->
  (exists p,
     fst (getProduct req w) = Sent 200 (Data p) /\
     In p (Products (db w)) /\
     key_eq (JStr s) (Product.product_id p) = true) \/
  (fst (getProduct req w) =
     Sent 404 (ErrorEnvelope {|
       status := 404;
       code := "PRD_01";
       message := error "ProductError" "PRD_01" ++ " " ++ s;
       field := "product_id" |}) /\
   forall p, In p (Products (db w)) ->
     key_eq (JStr s) (Product.product_id p) = false).
Proof.
  intros Hp Hc. unfold getProduct, try_next, bind. rewrite Hp.
  rewrite (findByPk_string MProduct Products Product.product_id s w Hc).
  destruct (find _ _) as [p|] eqn:E.
  - left. exists p. apply find_some in E. destruct E as [Hin Hk].
    split; [destruct p; reflexivity | auto].
  - right. split; [reflexivity|]. intros p Hin.
    exact (find_none _ _ E p Hin).
Qed.

(** X20.  [getDepartment] with a string parameter on a reachable store
    answers 200 with the first department whose key the parameter
    denotes; when there is none it answers 404 with code [DEP_02], field
    [department_id], and a message made of a space, the template and the
    parameter, with nothing between the last two. *)
Theorem getDepartment_by_key (req : Request) (w : World) (s : string) :
  get (params req) "department_id" = JStr s ->
  connected w = true ->
  (exists d,
     fst (getDepartment req w) = Sent 200 (Data d) /\
     In d (Departments (db w)) /\
     key_eq (JStr s) (Department.department_id d) = true) \/
  (fst (getDepartment req w) =
     Sent 404 (ErrorEnvelope {|
       status := 404;
       code := "DEP_02";
       message := " " ++ error "DepartmentError" "DEP_02" ++ s;
       field := "department_id" |}) /\
   forall d, In d (Departments (db w)) ->
     key_eq (JStr s) (Department.department_id d) = false).
Proof.
  intros Hp Hc. unfold getDepartment, try_next, bind. rewrite Hp.
  rewrite (findByPk_string MDepartment Departments
             Department.department_id s w Hc).
  destruct (find _ _) as [d|] eqn:E.
  - left. exists d. apply find_some in E. destruct E as [Hin Hk]. auto.
  - right. split; [reflexivity|]. intros d Hin.
    exact (find_none _ _ E d Hin).
Qed.

(** X21.  [getSingleCategory] with a string parameter on a reachable store
    answers 200 with the first category whose key the parameter denotes;
    when there is none it answers 404 with code [CAT_01] and field
    [category_id], with the same message for every parameter. *)
Theorem getSingleCategory_by_key (req : Request) (w : World) (s : string) :
  get (params req) "category_id" = JStr s ->
  connected w = true ->
  (exists c,
     fst (getSingleCategory req w) = Sent 200 (Data c) /\
     In c (Categories (db w)) /\
     key_eq (JStr s) (Category.category_id c) = true) \/
  (fst (getSingleCategory req w) =
     Sent 404 (ErrorEnvelope {|
       status := 404;
       code := "CAT_01";
       message := error "CategoryError" "CAT_01";
       field := "category_id" |}) /\
   forall c, In c (Categories (db w)) ->
     key_eq (JStr s) (Category.category_id c) = false).
Proof.
  intros Hp Hc. unfold getSingleCategory, try_next, bind. rewrite Hp.
  rewrite (findByPk_string MCategory Categories Category.category_id s w
             Hc).
  destruct (find _ _) as [c|] eqn:E.
  - left. exists c. apply find_some in E. destruct E as [Hin Hk]. auto.
  - right. split; [reflexivity|]. intros c Hin.
    exact (find_none _ _ E c Hin).
Qed.

(** X22.  A review posted without [product_id] is answered 404 with code
    [PRD_01] and a message that ends in [undefined]; the handler sends
    nothing to the store and the world is as it was, reachable or not. *)
Theorem postProductReviews_without_product_id (req : Request) (w : World) :
  get (req_body req) "product_id" = JUndefined ->
  postProductReviews req w =
    (Sent 404 (ErrorEnvelope {|
       status := 404;
       code := "PRD_01";
       message := error "ProductError" "PRD_01" ++ " undefined";
       field := "product_id" |}), w).
Proof.
  intros H. unfold postProductReviews, try_next, bind.
  cbn [Review.m_product_id]. rewrite H. reflexivity.
Qed.

(** X23.  [getProductReviews] without a usable parameter, missing or the
    empty string, settles without an answer and without calling [next],
    and sends nothing to the store. *)
Theorem getProductReviews_without_parameter (req : Request) (w : World) :
  truthy (get (params req) "product_id") = false ->
  getProductReviews req w = (NoResponse, w).
Proof.
  intros H. unfold getProductReviews, try_next. now rewrite H.
Qed.

End Lookups.

(** ** Further runs on the sample store *)

Section MoreRuns.
Import Orm ProductController AttributeController Sample.
#[local] Existing Instance collaborators.

Lemma unreachable_store_goes_to_next_witness :
  connected offline = false /\
  fst (getAllDepartments list_plain offline)
    = Next (StoreError "connection refused") /\
  fst (getCategoryOfProduct (by_product "1") offline)
    = Next (StoreError "connection refused").
Proof.
  split; [reflexivity|]. split.
  - apply (unreachable_store_goes_to_next list_plain offline eq_refl).
  - apply (unreachable_store_goes_to_next (by_product "1") offline eq_refl).
Defined.

Lemma getProductsByCategory_first_twenty_witness :
  connected world = true /\
  fst (getProductsByCategory (by_category "1") world)
    = Sent 200 (Data [boots]) /\
  fst (getProductsByCategory (by_category "7") world)
    = Sent 404 (ErrorEnvelope {|
        status := 404;
        code := "PRD_02";
        message := "Don't exist products in category 7";
        field := "category_id" |}).
Proof.
  split; [reflexivity|]. split.
  - exact (proj1 (getProductsByCategory_first_twenty (by_category "1")
                    world eq_refl)).
  - exact (proj1 (getProductsByCategory_first_twenty (by_category "7")
                    world eq_refl)).
Defined.

Lemma getProductsByDepartment_first_twenty_witness :
  connected two_categories = true /\
  fst (getProductsByDepartment (by_department "1") two_categories)
    = Sent 200 (Data [boots]) /\
  fst (getProductsByDepartment (by_department "1") world)
    = Sent 200 (Data [boots]).
Proof.
  split; [reflexivity|]. split.
  - exact (proj1 (getProductsByDepartment_first_twenty (by_department "1")
                    two_categories eq_refl)).
  - exact (proj1 (getProductsByDepartment_first_twenty (by_department "1")
                    world eq_refl)).
Defined.

Lemma getDepartmentCategories_window_witness :
  connected world = true /\
  fst (getDepartmentCategories (by_department "1") world)
    = Sent 200 (Data (Categories tables)) /\
  fst (getDepartmentCategories (by_department "9") world)
    = Sent 404 (ErrorEnvelope {|
        status := 404;
        code := "DEP_02";
        message := "Don't exist department with this ID 9";
        field := "department_id" |}).
Proof.
  split; [reflexivity|]. split.
  - exact (proj1 (getDepartmentCategories_window (by_department "1") world
                    None None eq_refl eq_refl eq_refl)).
  - exact (proj1 (getDepartmentCategories_window (by_department "9") world
                    None None eq_refl eq_refl eq_refl)).
Defined.

Lemma getCategoryOfProduct_all_categories_witness :
  categories_of_product (get (params (by_product "1")) "product_id")
    (db world) = Categories tables /\
  fst (getCategoryOfProduct (by_product "1") world)
    = Sent 200 (Data (Categories tables)).
Proof.
  split; [reflexivity|].
  exact (proj1 (getCategoryOfProduct_all_categories (by_product "1") world
                  _ _ eq_refl eq_refl)).
Defined.

Lemma getProductAttributes_window_witness :
  connected world = true /\
  fst (getProductAttributes (by_product "1") world)
    = Sent 200 (Data [value 1 1 "S"; value 6 2 "White"]).
Proof.
  split; [reflexivity|].
  exact (proj1 (getProductAttributes_window (by_product "1") world
                  None None eq_refl eq_refl eq_refl)).
Defined.

Lemma getAttributeValues_offset_past_the_end_witness :
  bound (get (query values_past_the_end) "offset") = Some (Some 7%nat) /\
  fst (getAttributeValues values_past_the_end world) = Sent 200 (Data []).
Proof.
  split; [reflexivity|].
  refine (getAttributeValues_offset_past_the_end values_past_the_end world
            None 7 eq_refl eq_refl eq_refl _ _).
  - vm_compute. discriminate.
  - vm_compute. lia.
Defined.

Lemma searchProduct_empty_query_witness :
  fst (searchProduct (search "" "on") world)
    = Sent 200 (Data [boots; shirt; scarf]) /\
  fst (searchProduct (search "" "Off") world)
    = Sent 200 (Data [boots; shirt; scarf]).
Proof.
  split.
  - exact (searchProduct_empty_query ALL_FIELDS (search "" "on") world "on"
             eq_refl eq_refl eq_refl eq_refl).
  - exact (searchProduct_empty_query NAME_ONLY (search "" "Off") world "Off"
             eq_refl eq_refl eq_refl eq_refl).
Defined.

Lemma searchProduct_mode_ignores_case_witness :
  toLowerCase "OFF" = toLowerCase "off" /\
  searchProduct (search "Shoe" "OFF") world
    = searchProduct (search "Shoe" "off") world.
Proof.
  split; [reflexivity|].
  exact (searchProduct_mode_ignores_case (search "Shoe" "OFF")
           (search "Shoe" "off") world "OFF" "off"
           eq_refl eq_refl eq_refl eq_refl).
Defined.

Lemma searchProduct_on_ignores_query_case_witness :
  toLowerCase "SHOE" = toLowerCase "sHoe" /\
  searchProduct (search "SHOE" "on") world
    = searchProduct (search "sHoe" "on") world.
Proof.
  split; [reflexivity|].
  exact (searchProduct_on_ignores_query_case (search "SHOE" "on")
           (search "sHoe" "on") world "SHOE" "sHoe" "on"
           eq_refl eq_refl eq_refl eq_refl eq_refl eq_refl).
Defined.

Lemma searchProduct_shows_stored_products_witness :
  fst (searchProduct (search "SHOE" "on") world)
    = Sent 200 (Data [boots; shirt]) /\
  In shirt (Products (db world)).
Proof.
  split; [reflexivity|].
  refine (searchProduct_shows_stored_products (search "SHOE" "on") world
            200 [boots; shirt] shirt eq_refl _).
  right. left. reflexivity.
Defined.

Lemma searchProduct_name_match_is_field_match_witness :
  fst (searchProduct (search "Shoe" "off") world) = Sent 200 (Data [shirt]) /\
  exists found_on,
    fst (searchProduct (search "Shoe" "on") world)
      = Sent 200 (Data found_on) /\
    In shirt found_on.
Proof.
  split; [reflexivity|].
  refine (searchProduct_name_match_is_field_match (search "Shoe" "off")
            (search "Shoe" "on") world "Shoe" "off" "on" [shirt] shirt
            eq_refl eq_refl eq_refl eq_refl eq_refl eq_refl eq_refl
            eq_refl _ _ eq_refl eq_refl).
  - left. reflexivity.
  - exists ("{" ++ dq ++ "name" ++ dq ++ ":" ++ dq)%string,
           (dq ++ "," ++ member "description" (Product.description shirt)
               ++ "," ++ member "price" (Product.price shirt) ++ "}")%string.
    reflexivity.
Defined.

Lemma getProduct_by_key_witness :
  (exists p,
     fst (getProduct (by_product "2") world) = Sent 200 (Data p) /\
     In p (Products (db world)) /\
     key_eq (JStr "2") (Product.product_id p) = true) \/
  (fst (getProduct (by_product "2") world) =
     Sent 404 (ErrorEnvelope {|
       status := 404;
       code := "PRD_01";
       message := error "ProductError" "PRD_01" ++ " " ++ "2";
       field := "product_id" |}) /\
   forall p, In p (Products (db world)) ->
     key_eq (JStr "2") (Product.product_id p) = false).
Proof.
  exact (getProduct_by_key (by_product "2") world "2" eq_refl eq_refl).
Defined.

Lemma getDepartment_by_key_witness :
  (exists d,
     fst (getDepartment (by_department "9") world) = Sent 200 (Data d) /\
     In d (Departments (db world)) /\
     key_eq (JStr "9") (Department.department_id d) = true) \/
  (fst (getDepartment (by_department "9") world) =
     Sent 404 (ErrorEnvelope {|
       status := 404;
       code := "DEP_02";
       message := " " ++ error "DepartmentError" "DEP_02" ++ "9";
       field := "department_id" |}) /\
   forall d, In d (Departments (db world)) ->
     key_eq (JStr "9") (Department.department_id d) = false).
Proof.
  exact (getDepartment_by_key (by_department "9") world "9" eq_refl eq_refl).
Defined.

Lemma getSingleCategory_by_key_witness :
  (exists c,
     fst (getSingleCategory (by_category "1") world) = Sent 200 (Data c) /\
     In c (Categories (db world)) /\
     key_eq (JStr "1") (Category.category_id c) = true) \/
  (fst (getSingleCategory (by_category "1") world) =
     Sent 404 (ErrorEnvelope {|
       status := 404;
       code := "CAT_01";
       message := error "CategoryError" "CAT_01";
       field := "category_id" |}) /\
   forall c, In c (Categories (db world)) ->
     key_eq (JStr "1") (Category.category_id c) = false).
Proof.
  exact (getSingleCategory_by_key (by_category "1") world "1"
           eq_refl eq_refl).
Defined.

Lemma postProductReviews_without_product_id_witness :
  get (req_body review_without_product) "product_id" = JUndefined /\
  postProductReviews review_without_product world =
    (Sent 404 (ErrorEnvelope {|
       status := 404;
       code := "PRD_01";
       message := "Don't exist product with this ID undefined";
       field := "product_id" |}), world).
Proof.
  split; [reflexivity|].
  exact (postProductReviews_without_product_id review_without_product world
           eq_refl).
Defined.

Lemma getProductReviews_without_parameter_witness :
  truthy (get (params (by_product "")) "product_id") = false /\
  getProductReviews (by_product "") world = (NoResponse, world).
Proof.
  split; [reflexivity|].
  exact (getProductReviews_without_parameter (by_product "") world eq_refl).
Defined.

(** The sample runs of the lookups. *)
Example product_two_is_the_shirt :
  fst (getProduct (by_product "2") world) = Sent 200 (Data shirt).
Proof. reflexivity. Qed.

Example department_nine_is_unknown :
  fst (getDepartment (by_department "9") world) =
    Sent 404 (ErrorEnvelope {|
      status := 404;
      code := "DEP_02";
      message := " Don't exist department with this ID9";
      field := "department_id" |}).
Proof. reflexivity. Qed.

End MoreRuns.
